(** * Broker delegation and silent token acquisition of msal-browser,
      and the ClientInfo codec of msal-core

    A shallow embedding of
    - [ClientInfo] (constructor, [stripPolicyFromUid], [encodeClientInfo]),
    - [BrokerHandshakeResponse.validate],
    - [BrokerClientApplication] (message dispatch, the redirect barrier, the
      in-memory response cache, the brokered acquisition handlers),
    - [PublicClientApplication] and [ExperimentalClientApplication]
      ([acquireTokenSilent], [acquireTokenPopup], [handleRedirectPromise]).

    Asynchronous code is embedded in a small trace/state/exception monad: every
    call that leaves the function (a post on a port, a cache access, a call to
    an acquisition routine of the base class) is recorded as an [Action] of the
    trace, in program order; what such a call returns or throws is read from
    an environment of collaborators. *)

From stdpp Require Import gmap strings list fin_maps.
From Stdlib Require Import Ascii String.

Open Scope string_scope.

(** ** Errors and outcomes of calls *)

Inductive Error : Type :=
| NoAccountError
| UntrustedBrokerError
| NoTokensToCacheError
| InteractionRequiredAuthError (message : string)
| ClientInfoDecodingError (cause : Error)
| TypeError (message : string)
| OtherError (message : string).

(** What a JavaScript call does: it returns a value or throws. *)
Inductive Outcome (A : Type) : Type :=
| Returned (a : A)
| Thrown (e : Error).
Arguments Returned {A} a.
Arguments Thrown {A} e.

(** ** String helpers of the host language *)

(** [s.split(sep)] for a one-character separator: never the empty array. *)
Fixpoint split (sep : ascii) (s : string) : list string :=
  match s with
  | EmptyString => [EmptyString]
  | String c rest =>
      if Ascii.eqb c sep then EmptyString :: split sep rest
      else match split sep rest with
           | seg :: segs => String c seg :: segs
           | [] => [String c EmptyString]
           end
  end.

(** [segments.join(sep)]. *)
Fixpoint join (sep : ascii) (segments : list string) : string :=
  match segments with
  | [] => EmptyString
  | [seg] => seg
  | seg :: rest => seg +:+ String sep (join sep rest)
  end.

(** [StringUtils.isEmpty] lives in utils/StringUtils, which is not among the
    sources; on a defined string it is the test for the empty string. *)
Definition isEmpty (s : string) : bool := bool_decide (s = "").

(** ** ClientInfo *)

Module ClientInfo.

Record t : Type := make { uid : string; utid : string }.

(** The value [JSON.parse] gives back, as far as the constructor reads it:
    a falsy value, or an object of which only own string properties are
    looked at. *)
Inductive JsonValue : Type :=
| JsonNull
| JsonObject (fields : gmap string string).

(** [CryptoUtils] and the host's [JSON] object are collaborators. *)
Record Codec : Type := {
  base64Encode : string -> string;
  base64Decode : string -> Outcome string;
  JSON_stringify : gmap string string -> string;
  JSON_parse : string -> Outcome JsonValue
}.

Definition policyOf (authority : string) : string :=
  let urlSegments := rev (split "/" authority) in
  match urlSegments with
  | seg0 :: rest =>
      if negb (isEmpty seg0) then seg0
      else match rest with
           | seg1 :: _ => seg1
           | [] => ""
           end
  | [] => ""
  end.

Definition stripPolicyFromUid (uid authority : string) : string :=
  let uidSegments := split "-" uid in
  let policy := policyOf authority in
  if bool_decide (last uidSegments = Some policy)
  then join "-" (removelast uidSegments)
  else uid.

(** [new ClientInfo(rawClientInfo, authority)]; [None] is a null or undefined
    raw string. The getters turn an unset [_uid] or [_utid] into [""]. *)
Definition new (codec : Codec) (rawClientInfo : option string) (authority : string)
  : Outcome t :=
  match rawClientInfo with
  | None => Returned (make "" "")
  | Some raw =>
      if isEmpty raw then Returned (make "" "")
      else
        match base64Decode codec raw with
        | Thrown e => Thrown (ClientInfoDecodingError e)
        | Returned decodedClientInfo =>
            match JSON_parse codec decodedClientInfo with
            | Thrown e => Thrown (ClientInfoDecodingError e)
            | Returned JsonNull => Returned (make "" "")
            | Returned (JsonObject clientInfo) =>
                Returned
                  (make
                     (match clientInfo !! "uid" with
                      | Some u => stripPolicyFromUid u authority
                      | None => ""
                      end)
                     (match clientInfo !! "utid" with
                      | Some u => u
                      | None => ""
                      end))
            end
        end
  end.

Definition encodeClientInfo (codec : Codec) (c : t) : string :=
  let clientInfo :=
    JSON_stringify codec (<["uid" := uid c]> (<["utid" := utid c]> ∅)) in
  base64Encode codec clientInfo.

(** The claim's wording of the policy: the authority's trailing non-empty
    URL segment, the last of its [/]-separated segments that is not empty. *)
Definition trailingNonEmptySegment (authority : string) : option string :=
  head (filter (fun seg => seg ≠ "") (rev (split "/" authority))).

End ClientInfo.

(** ** Data exchanged between the embedded application and the broker *)

Inductive InteractionType : Type :=
| Redirect
| Popup
| Silent
| NoInteraction.  (* InteractionType.None *)

Inductive BrokerMessageType : Type :=
| HANDSHAKE_REQUEST
| HANDSHAKE_RESPONSE
| HANDLE_REDIRECT_REQUEST
| AUTH_REQUEST
| AUTH_RESPONSE
| REDIRECT_RESPONSE.

(** The [messageType] property of an incoming payload is any string: one of
    the enumeration's, or another one. *)
Inductive MessageTag : Type :=
| KnownType (t : BrokerMessageType)
| UnknownType (raw : string).

Record AccountInfo : Type := {
  homeAccountId : string;
  username : string
}.

Record RequestThumbprint : Type := {
  authority : string;
  clientId : string;
  scopes : list string
}.

(** The acquisition request an embedded application sends along, with the
    properties the broker reads or sets. *)
Record AcquisitionRequest : Type := {
  req_authority : string;
  req_scopes : list string;
  req_account : option AccountInfo;
  req_state : option string;
  req_nonce : string;
  redirectUri : option string;
  embeddedAppClientId : option string;
  embeddedAppRedirectUri : option string;
  brokerRedirectUri : option string;
  forceRefresh : bool
}.

(** The tokens a brokered response carries for the embedded application to
    cache; its content is not looked at. *)
Inductive BrokeredCacheRecord : Type :=
| CacheRecord (content : string).

Record BrokerAuthenticationResult : Type := {
  account : option AccountInfo;
  accessToken : string;
  tokensToCache : option BrokeredCacheRecord;
  responseThumbprint : RequestThumbprint
}.

(** Messages the broker builds. *)
Record BrokerHandshakeResponse : Type := {
  version : string;
  brokerOrigin : string
}.

Inductive BrokerMessage : Type :=
| HandshakeResponseMessage (response : BrokerHandshakeResponse)
| BrokerAuthResponse (interaction : InteractionType)
    (result : option BrokerAuthenticationResult) (error : option Error)
| BrokerRedirectResponse.

(** An incoming [MessageEvent]: the payload is whatever the sender posted,
    [origin] and [ports] are set by the transport. *)
Record MessageData : Type := {
  messageType : option MessageTag;
  data_version : option string;
  data_brokerOrigin : option string;
  data_embeddedClientId : option string;
  data_interactionType : option InteractionType;
  data_request : option AcquisitionRequest
}.

Definition Port : Type := nat.

Record MessageEvent : Type := {
  data : option MessageData;
  origin : string;
  ports : list Port
}.

Record BrokerHandshakeRequest : Type := {
  hs_embeddedClientId : string;
  hs_version : string
}.

(** A validated [BrokerAuthRequest]. *)
Record BrokerAuthRequest : Type := {
  interactionType : InteractionType;
  embeddedClientId : string;
  embeddedAppOrigin : string;
  request : AcquisitionRequest
}.

Record BrowserStateObject : Type := {
  state_interactionType : InteractionType;
  brokeredOrigin : string
}.

Record RequestStateObject : Type := {
  userRequestState : string
}.

(** ** Effects *)

Inductive LogLevel : Type := LogError | LogInfo | LogVerbose.

Inductive EventType : Type :=
| ACQUIRE_TOKEN_START
| ACQUIRE_TOKEN_SUCCESS
| ACQUIRE_TOKEN_FAILURE.

Inductive Action : Type :=
| Log (level : LogLevel) (message : string)
(* the channel of a brokered request, and the window of a handshake *)
| PostMessage (port : Port) (message : BrokerMessage)
| ClosePort (port : Port)
| PostToSource (targetOrigin : string) (message : BrokerMessage)
(* the in-memory response cache and the active account *)
| GetBrokerResponseByThumbprint (thumbprint : RequestThumbprint) (embeddedOrigin : string)
| GetBrokerResponseByOrigin (embeddedOrigin : string)
| SetMemoryCache (key : string * string * gset string) (value : string)
| SetActiveAccount (acct : option AccountInfo)
| UpdateCacheEntries (state nonce authority : string)
(* the barrier on the redirect completion *)
| AwaitRedirectResponse
| RedirectResponseSettled
(* acquisition routines of ClientApplication *)
| PreflightBrowserEnvironmentCheck (interaction : InteractionType)
| CreateSilentFlowClient
| AcquireCachedToken (silentRequest : AcquisitionRequest)
| AcquireTokenByRefreshToken (silentRequest : AcquisitionRequest)
| AcquireTokenByIframe (silentRequest : AcquisitionRequest)
| AcquireTokenPopupAsync (popupRequest : AcquisitionRequest)
| AcquireTokenRedirectAsync (redirectRequest : AcquisitionRequest)
| SuperAcquireTokenPopup (popupRequest : AcquisitionRequest)
| SuperHandleRedirectPromise (hash : option string)
| BrokerHandleRedirectPromise (hash : option string)
| EmitEvent (event : EventType) (interaction : InteractionType)
(* calls forwarded to the broker by the embedded application *)
| SendSilentRefreshRequest (silentRequest : AcquisitionRequest)
| SendPopupRequest (popupRequest : AcquisitionRequest)
| SendHandleRedirectRequest.

(** A run of an (asynchronous) function from a state [S]: what it did, in
    order, the state it left, and what it returned or threw. *)
Record Run (S A : Type) : Type := mkRun {
  trace : list Action;
  final : S;
  outcome : Outcome A
}.
Arguments mkRun {S A} trace final outcome.
Arguments trace {S A} r.
Arguments final {S A} r.
Arguments outcome {S A} r.

Definition M (S A : Type) : Type := S → Run S A.

#[global] Instance M_ret {S} : MRet (M S) :=
  λ A a s, mkRun [] s (Returned a).

#[global] Instance M_bind {S} : MBind (M S) :=
  λ A B f m s,
    match m s with
    | mkRun tr s' (Returned a) =>
        match f a s' with
        | mkRun tr' s'' o => mkRun (tr ++ tr') s'' o
        end
    | mkRun tr s' (Thrown e) => mkRun tr s' (Thrown e)
    end.

Definition throw {S A} (e : Error) : M S A :=
  λ s, mkRun [] s (Thrown e).

(** [try { body } catch (err) { handler err }]. *)
Definition tryCatch {S A} (body : M S A) (handler : Error → M S A) : M S A :=
  λ s,
    match body s with
    | mkRun tr s' (Returned a) => mkRun tr s' (Returned a)
    | mkRun tr s' (Thrown e) =>
        match handler e s' with
        | mkRun tr' s'' o => mkRun (tr ++ tr') s'' o
        end
    end.

Definition emit {S} (a : Action) : M S unit :=
  λ s, mkRun [a] s (Returned tt).

Definition get {S} : M S S :=
  λ s, mkRun [] s (Returned s).

Definition modify {S} (f : S → S) : M S unit :=
  λ s, mkRun [] (f s) (Returned tt).

(** The settlement of an awaited call. *)
Definition await {S A} (o : Outcome A) : M S A :=
  λ s, mkRun [] s o.

#[global] Instance BrokerMessageType_eq_dec : EqDecision BrokerMessageType.
Proof. solve_decision. Defined.

#[global] Instance MessageTag_eq_dec : EqDecision MessageTag.
Proof. solve_decision. Defined.

(** A property read as a condition: [undefined] and [""] are falsy. *)
Definition truthy (s : option string) : option string :=
  match s with
  | Some v => if isEmpty v then None else Some v
  | None => None
  end.

(** [port.postMessage(m)] and [port.close()] on [ports[0]], which is
    [undefined] when the event came without a channel. *)
Definition postMessage {S} (clientPort : option Port) (message : BrokerMessage)
  : M S unit :=
  match clientPort with
  | Some p => emit (PostMessage p message)
  | None => throw (TypeError "postMessage of undefined")
  end.

Definition close {S} (clientPort : option Port) : M S unit :=
  match clientPort with
  | Some p => emit (ClosePort p)
  | None => throw (TypeError "close of undefined")
  end.

(** ** Message envelope and handshake response *)

(** Modelled from the spec: [BrokerMessage.validateMessage]; msg/BrokerMessage
    is not among the sources. "validate(rawEvent) -> Message | null. Fails
    closed: malformed shape, unknown messageType, or missing required fields
    yields null", the [messageType] being "one of a closed enumeration": the
    event itself when it has a payload whose [messageType] is of the
    enumeration, null otherwise. *)
Definition validateMessage (message : MessageEvent) : option MessageEvent :=
  match data message with
  | Some d =>
      match messageType d with
      | Some (KnownType _) => Some message
      | Some (UnknownType _) => None
      | None => None
      end
  | None => None
  end.

(** [BrokerHandshakeResponse.validate(message, trustedBrokerDomains)];
    [StringUtils.matchPattern] is a collaborator. *)
Definition BrokerHandshakeResponse_validate (matchPattern : string → string → bool)
    (message : MessageEvent) (trustedBrokerDomains : list string)
  : Outcome (option BrokerHandshakeResponse) :=
  match validateMessage message with
  | Some message =>
      match data message with
      | Some d =>
          if bool_decide (messageType d = Some (KnownType HANDSHAKE_RESPONSE)) then
            match truthy (data_version d) with
            | Some v =>
                let matchedDomains :=
                  List.filter (λ domain, matchPattern domain (origin message))
                    trustedBrokerDomains in
                if (List.length matchedDomains <=? 0)%nat
                then Thrown UntrustedBrokerError
                else Returned (Some {| version := v; brokerOrigin := origin message |})
            | None => Returned None
            end
          else Returned None
      | None => Returned None
      end
  | None => Returned None
  end.

(** ** The broker application *)

Record Broker : Type := {
  (* browserStorage's in-memory cache of brokered responses *)
  memoryCache : gmap (string * string * gset string) string;
  activeAccount : option AccountInfo;
  (* the stored promise of the redirect completion, by what
     [super.handleRedirectPromise] settles to *)
  currentBrokerRedirectResponse : option (Outcome (option BrokerAuthenticationResult))
}.

Definition withMemoryCache (f : gmap (string * string * gset string) string →
                                gmap (string * string * gset string) string)
    (b : Broker) : Broker :=
  {| memoryCache := f (memoryCache b);
     activeAccount := activeAccount b;
     currentBrokerRedirectResponse := currentBrokerRedirectResponse b |}.

Definition withActiveAccount (acct : option AccountInfo) (b : Broker) : Broker :=
  {| memoryCache := memoryCache b;
     activeAccount := acct;
     currentBrokerRedirectResponse := currentBrokerRedirectResponse b |}.

Definition withRedirectResponse
    (p : option (Outcome (option BrokerAuthenticationResult))) (b : Broker) : Broker :=
  {| memoryCache := memoryCache b;
     activeAccount := activeAccount b;
     currentBrokerRedirectResponse := p |}.

(** What the broker is configured with and what it calls outside of
    BrokerClientApplication.ts. An acquisition routine is given by what the
    promise it returns settles to. *)
Record Env : Type := {
  packageVersion : string;
  preferredInteractionType : option InteractionType;
  getRedirectUri : string;
  (* validators of msg/req *)
  BrokerHandshakeRequest_validate : MessageEvent → option BrokerHandshakeRequest;
  BrokerHandleRedirectRequest_validate : MessageEvent → bool;
  BrokerAuthRequest_validate : MessageEvent → option BrokerAuthRequest;
  (* JSON on brokered results *)
  JSON_stringify : BrokerAuthenticationResult → string;
  JSON_parse : string → Outcome BrokerAuthenticationResult;
  (* whether a cached, serialized response is the one of an embedded origin *)
  cachedForOrigin : string → string → bool;
  (* ProtocolUtils *)
  parseRequestState : string → Outcome (option RequestStateObject);
  setRequestState : option string → BrowserStateObject → Outcome string;
  (* ClientApplication *)
  acquireTokenByRefreshToken : AcquisitionRequest → Outcome BrokerAuthenticationResult;
  acquireTokenByIframe : AcquisitionRequest → Outcome BrokerAuthenticationResult;
  acquireTokenPopupAsync : AcquisitionRequest → Outcome BrokerAuthenticationResult;
  super_handleRedirectPromise : option string → Outcome (option BrokerAuthenticationResult)
}.

(** *** The in-memory response cache *)

(** Modelled from the spec: [generateBrokerResponseKey] of the storage layer
    (BrowserCacheManager is not among the sources). "[scopes] is treated as an
    unordered set (order irrelevant, duplicates collapsed) for comparison
    purposes. Two thumbprints are equal iff authority strings match exactly
    and scope sets are equal as sets"; the client id is compared as the
    authority is. *)
Definition generateBrokerResponseKey (thumbprint : RequestThumbprint)
  : string * string * gset string :=
  (authority thumbprint, clientId thumbprint, list_to_set (scopes thumbprint)).

Definition setMemoryCache (key : string * string * gset string) (value : string)
  : M Broker unit :=
  emit (SetMemoryCache key value) ;;
  modify (withMemoryCache (insert key value)).

(** Modelled from the spec: [getBrokerResponseByThumbprint] of the storage
    layer. "keyed by (thumbprint, embeddedAppOrigin) for silent/auth
    lookups"; "entries ... are removed once served to a matching request". *)
Definition getBrokerResponseByThumbprint (env : Env)
    (thumbprint : RequestThumbprint) (embeddedOrigin : string)
  : M Broker (option string) :=
  emit (GetBrokerResponseByThumbprint thumbprint embeddedOrigin) ;;
  b ← get ;
  let key := generateBrokerResponseKey thumbprint in
  match memoryCache b !! key with
  | Some value =>
      if cachedForOrigin env embeddedOrigin value
      then modify (withMemoryCache (delete key)) ;; mret (Some value)
      else mret None
  | None => mret None
  end.

(** Modelled from the spec: [getBrokerResponseByOrigin] of the storage layer.
    "separately by origin alone for pending redirect completions"; "first
    successful read removes or marks the entry consumed". *)
Definition getBrokerResponseByOrigin (env : Env) (embeddedOrigin : string)
  : M Broker (option string) :=
  emit (GetBrokerResponseByOrigin embeddedOrigin) ;;
  b ← get ;
  match head (List.filter (λ kv, cachedForOrigin env embeddedOrigin kv.2)
                (map_to_list (memoryCache b))) with
  | Some (key, value) => modify (withMemoryCache (delete key)) ;; mret (Some value)
  | None => mret None
  end.

Definition setActiveAccount (acct : option AccountInfo) : M Broker unit :=
  emit (SetActiveAccount acct) ;;
  modify (withActiveAccount acct).

Definition getActiveAccount : M Broker (option AccountInfo) :=
  b ← get ; mret (activeAccount b).

(** *** Redirect completion *)

(** [waitForBrokeredResponse(brokerResponse)]. *)
Definition waitForBrokeredResponse (env : Env)
    (brokerResponse : Outcome (option BrokerAuthenticationResult))
  : M Broker (option BrokerAuthenticationResult) :=
  cachedResponse ← await brokerResponse ;
  match cachedResponse with
  | Some cachedResponse =>
      match tokensToCache cachedResponse with
      | None => mret (Some cachedResponse)
      | Some _ =>
          setMemoryCache
            (generateBrokerResponseKey (responseThumbprint cachedResponse))
            (JSON_stringify env cachedResponse) ;;
          setActiveAccount (account cachedResponse) ;;
          mret None
      end
  | None => mret None
  end.

(** [handleRedirectPromise(hash)], run without another task in between. *)
Definition handleRedirectPromise (env : Env) (hash : option string)
  : M Broker (option BrokerAuthenticationResult) :=
  emit (SuperHandleRedirectPromise hash) ;;
  let brokerResponse := super_handleRedirectPromise env hash in
  modify (withRedirectResponse (Some brokerResponse)) ;;
  redirectResponse ← waitForBrokeredResponse env brokerResponse ;
  modify (withRedirectResponse None) ;;
  mret (match redirectResponse with
        | Some r =>
            match tokensToCache r with
            | None => Some r
            | Some _ => None
            end
        | None => None
        end).

(** The first half of [handleRedirectPromise], up to the point where it
    waits: the promise is stored and not settled yet. *)
Definition handleRedirectPromise_begin (env : Env) (hash : option string)
  : M Broker unit :=
  emit (SuperHandleRedirectPromise hash) ;;
  modify (withRedirectResponse (Some (super_handleRedirectPromise env hash))).

(** [if (this.currentBrokerRedirectResponse) await this.currentBrokerRedirectResponse]
    in a handler. The task is suspended ([AwaitRedirectResponse]) until the
    stored promise settles: by then [waitForBrokeredResponse] has run and the
    [handleRedirectPromise] call that waits for the same promise, resumed
    first, has cleared the field; a rejection is thrown at the [await], and
    the rejected promise stays stored. *)
Definition awaitCurrentBrokerRedirectResponse (env : Env) : M Broker unit :=
  b ← get ;
  match currentBrokerRedirectResponse b with
  | None => mret tt
  | Some brokerResponse =>
      emit AwaitRedirectResponse ;;
      waitForBrokeredResponse env brokerResponse ;;
      modify (withRedirectResponse None) ;;
      emit RedirectResponseSettled
  end.

(** *** Brokered requests *)

Definition withState (st : option string) (r : AcquisitionRequest) : AcquisitionRequest :=
  {| req_authority := req_authority r; req_scopes := req_scopes r;
     req_account := req_account r; req_state := st; req_nonce := req_nonce r;
     redirectUri := redirectUri r; embeddedAppClientId := embeddedAppClientId r;
     embeddedAppRedirectUri := embeddedAppRedirectUri r;
     brokerRedirectUri := brokerRedirectUri r; forceRefresh := forceRefresh r |}.

(** [r.redirectUri = ...; r.embeddedAppClientId = ...; r.brokerRedirectUri = ...]. *)
Definition withInteractiveParams (redirect client brokerRedirect : string)
    (r : AcquisitionRequest) : AcquisitionRequest :=
  {| req_authority := req_authority r; req_scopes := req_scopes r;
     req_account := req_account r; req_state := req_state r; req_nonce := req_nonce r;
     redirectUri := Some redirect; embeddedAppClientId := Some client;
     embeddedAppRedirectUri := embeddedAppRedirectUri r;
     brokerRedirectUri := Some brokerRedirect; forceRefresh := forceRefresh r |}.

(** [r.embeddedAppClientId = ...; r.embeddedAppRedirectUri = ...;
     if (!r.account) r.account = account]. *)
Definition withSilentParams (client redirect : string) (acct : option AccountInfo)
    (r : AcquisitionRequest) : AcquisitionRequest :=
  {| req_authority := req_authority r; req_scopes := req_scopes r;
     req_account := match req_account r with
                    | Some a => Some a
                    | None => acct
                    end;
     req_state := req_state r; req_nonce := req_nonce r;
     redirectUri := redirectUri r; embeddedAppClientId := Some client;
     embeddedAppRedirectUri := Some redirect;
     brokerRedirectUri := brokerRedirectUri r; forceRefresh := forceRefresh r |}.

Definition initializeBrokeredRequest (env : Env) (embeddedRequest : AcquisitionRequest)
    (interaction : InteractionType) (messageOrigin : string)
  : M Broker AcquisitionRequest :=
  embeddedState ←
    match truthy (req_state embeddedRequest) with
    | Some st =>
        embeddedStateObj ← await (parseRequestState env st) ;
        mret (Some (match embeddedStateObj with
                    | Some o => userRequestState o
                    | None => ""
                    end))
    | None => mret None
    end ;
  let browserState :=
    {| state_interactionType := interaction; brokeredOrigin := messageOrigin |} in
  brokerState ← await (setRequestState env embeddedState browserState) ;
  emit (UpdateCacheEntries brokerState (req_nonce embeddedRequest)
          (req_authority embeddedRequest)) ;;
  mret (withState (Some brokerState) embeddedRequest).

Definition brokeredRedirectRequest (env : Env) (validMessage : BrokerAuthRequest)
    (clientPort : option Port) : M Broker unit :=
  tryCatch
    (postMessage clientPort BrokerRedirectResponse ;;
     close clientPort ;;
     emit (Log LogInfo "Sending redirect response: [object Object]") ;;
     let redirectRequest :=
       withInteractiveParams (embeddedAppOrigin validMessage)
         (embeddedClientId validMessage) (getRedirectUri env) (request validMessage) in
     validatedBrokerRequest ←
       initializeBrokeredRequest env redirectRequest Redirect
         (embeddedAppOrigin validMessage) ;
     (* not awaited *)
     emit (AcquireTokenRedirectAsync validatedBrokerRequest))
    (λ err,
       emit (Log LogInfo "Found auth error in popup") ;;
       postMessage clientPort (BrokerAuthResponse Popup None (Some err)) ;;
       close clientPort).

Definition brokeredPopupRequest (env : Env) (validMessage : BrokerAuthRequest)
    (clientPort : option Port) : M Broker unit :=
  tryCatch
    (let popupRequest :=
       withInteractiveParams (embeddedAppOrigin validMessage)
         (embeddedClientId validMessage) (getRedirectUri env) (request validMessage) in
     validatedBrokerRequest ←
       initializeBrokeredRequest env popupRequest Popup (embeddedAppOrigin validMessage) ;
     emit (AcquireTokenPopupAsync validatedBrokerRequest) ;;
     response ← await (acquireTokenPopupAsync env validatedBrokerRequest) ;
     emit (Log LogInfo "Sending auth response") ;;
     postMessage clientPort (BrokerAuthResponse Popup (Some response) None) ;;
     close clientPort)
    (λ err,
       emit (Log LogInfo "Found auth error in popup") ;;
       postMessage clientPort (BrokerAuthResponse Popup None (Some err)) ;;
       close clientPort).

Definition brokeredSsoSilentRequest (env : Env) (validMessage : BrokerAuthRequest)
    (clientPort : option Port) : M Broker unit :=
  tryCatch
    (let silentRequest :=
       withInteractiveParams (embeddedAppOrigin validMessage)
         (embeddedClientId validMessage) (getRedirectUri env) (request validMessage) in
     brokeredSilentRequest ←
       initializeBrokeredRequest env silentRequest Silent (embeddedAppOrigin validMessage) ;
     emit (AcquireTokenByIframe brokeredSilentRequest) ;;
     response ← await (acquireTokenByIframe env brokeredSilentRequest) ;
     emit (Log LogInfo "Sending auth response") ;;
     postMessage clientPort (BrokerAuthResponse Popup (Some response) None) ;;
     close clientPort)
    (λ err,
       emit (Log LogInfo "Found auth error in silent") ;;
       postMessage clientPort (BrokerAuthResponse Silent None (Some err)) ;;
       close clientPort).

Definition brokeredSilentRequest (env : Env) (validMessage : BrokerAuthRequest)
    (clientPort : option Port) (acct : option AccountInfo) : M Broker unit :=
  tryCatch
    (let silentRequest :=
       withSilentParams (embeddedClientId validMessage)
         (embeddedAppOrigin validMessage) acct (request validMessage) in
     emit (AcquireTokenByRefreshToken silentRequest) ;;
     response ← await (acquireTokenByRefreshToken env silentRequest) ;
     match tokensToCache response with
     | Some _ =>
         emit (Log LogInfo "Sending auth response") ;;
         postMessage clientPort (BrokerAuthResponse Silent (Some response) None) ;;
         close clientPort
     | None =>
         emit (Log LogInfo "No tokens to cache") ;;
         postMessage clientPort
           (BrokerAuthResponse Silent None (Some NoTokensToCacheError)) ;;
         close clientPort
     end)
    (λ err,
       emit (Log LogInfo "Found auth error") ;;
       postMessage clientPort (BrokerAuthResponse Silent None (Some err)) ;;
       close clientPort).

Definition getInteractionType (env : Env) (messageInteractionType : InteractionType)
  : InteractionType :=
  match preferredInteractionType env with
  | Some preferred => preferred
  | None => messageInteractionType
  end.

Definition interactiveBrokerRequest (env : Env) (interaction : InteractionType)
    (validMessage : BrokerAuthRequest) (clientMessage : MessageEvent) : M Broker unit :=
  match interaction with
  | Redirect => brokeredRedirectRequest env validMessage (head (ports clientMessage))
  | Popup => brokeredPopupRequest env validMessage (head (ports clientMessage))
  | Silent =>
      emit (Log LogError
              "Invalid code path. interactiveBrokerRequest() should only be called for interactive requests.")
  | NoInteraction =>
      emit (Log LogError
              "Broker is blocking interactive requests. Please attempt a silent request or sign into the broker first.")
  end.

(** The thumbprint [handleBrokerAuthRequest] looks a response up with. *)
Definition reqThumbprintOf (validMessage : BrokerAuthRequest) : RequestThumbprint :=
  {| authority := req_authority (request validMessage);
     clientId := embeddedClientId validMessage;
     scopes := req_scopes (request validMessage) |}.

Definition handleBrokerAuthRequest (env : Env) (clientMessage : MessageEvent)
  : M Broker unit :=
  match BrokerAuthRequest_validate env clientMessage with
  | Some validMessage =>
      emit (Log LogVerbose "Broker auth request validated: [object Object]") ;;
      awaitCurrentBrokerRedirectResponse env ;;
      let reqThumbprint := reqThumbprintOf validMessage in
      cachedBrokerResponse ←
        getBrokerResponseByThumbprint env reqThumbprint (embeddedAppOrigin validMessage) ;
      match truthy cachedBrokerResponse with
      | Some cached =>
          brokerResponse ← await (JSON_parse env cached) ;
          let clientPort := head (ports clientMessage) in
          emit (Log LogInfo "Sending auth response") ;;
          postMessage clientPort (BrokerAuthResponse Redirect (Some brokerResponse) None) ;;
          close clientPort
      | None =>
          currentAccount ← getActiveAccount ;
          if bool_decide (is_Some currentAccount ∨
                          is_Some (req_account (request validMessage)))
          then brokeredSilentRequest env validMessage (head (ports clientMessage))
                 currentAccount
          else
            match interactionType validMessage with
            | Silent =>
                brokeredSsoSilentRequest env validMessage (head (ports clientMessage))
            | _ =>
                let interaction :=
                  getInteractionType env (interactionType validMessage) in
                interactiveBrokerRequest env interaction validMessage clientMessage
            end
      end
  | None => mret tt
  end.

Definition handleBrokerRedirectResponse (env : Env) (clientMessage : MessageEvent)
  : M Broker unit :=
  if BrokerHandleRedirectRequest_validate env clientMessage then
    let clientPort := head (ports clientMessage) in
    awaitCurrentBrokerRedirectResponse env ;;
    cachedBrokerResponse ← getBrokerResponseByOrigin env (origin clientMessage) ;
    match truthy cachedBrokerResponse with
    | Some cached =>
        brokerResponse ← await (JSON_parse env cached) ;
        emit (Log LogInfo "Sending auth response") ;;
        postMessage clientPort (BrokerAuthResponse Redirect (Some brokerResponse) None) ;;
        close clientPort
    | None =>
        postMessage clientPort (BrokerAuthResponse Redirect None None) ;;
        close clientPort
    end
  else mret tt.

Definition handleBrokerHandshake (env : Env) (clientMessage : MessageEvent)
  : M Broker unit :=
  let validMessage := BrokerHandshakeRequest_validate env clientMessage in
  emit (Log LogVerbose
          ("Broker handshake validated: " +:+
           match validMessage with
           | Some _ => "[object Object]"
           | None => "null"
           end)) ;;
  let brokerHandshakeResponse :=
    {| version := packageVersion env; brokerOrigin := "" |} in
  emit (PostToSource (origin clientMessage)
          (HandshakeResponseMessage brokerHandshakeResponse)) ;;
  emit (Log LogInfo "Sending handshake response: [object Object]").

Definition handleBrokerMessage (env : Env) (message : MessageEvent) : M Broker unit :=
  match validateMessage message with
  | Some clientMessage =>
      match data clientMessage with
      | Some d =>
          match messageType d with
          | Some (KnownType HANDSHAKE_REQUEST) =>
              emit (Log LogVerbose "Broker handshake request received") ;;
              handleBrokerHandshake env clientMessage
          | Some (KnownType HANDLE_REDIRECT_REQUEST) =>
              emit (Log LogVerbose "Broker handle redirect request received") ;;
              handleBrokerRedirectResponse env clientMessage
          | Some (KnownType AUTH_REQUEST) =>
              emit (Log LogVerbose "Broker auth request received") ;;
              handleBrokerAuthRequest env clientMessage
          | _ => mret tt
          end
      | None => throw (TypeError "messageType of undefined")
      end
  | None => mret tt
  end.

(** ** The public client applications *)

Record EmbeddedClientApplication : Type := {
  brokerConnectionEstablished : bool
}.

Record Client : Type := {
  broker : option Broker;
  embeddedApp : option EmbeddedClientApplication;
  client_activeAccount : option AccountInfo
}.

(** [this.embeddedApp && this.embeddedApp.brokerConnectionEstablished]. *)
Definition bonded (c : Client) : bool :=
  match embeddedApp c with
  | Some e => brokerConnectionEstablished e
  | None => false
  end.

(** What the applications call in ClientApplication and in
    EmbeddedClientApplication, neither among the sources, each by what it
    returns or what its promise settles to. *)
Record ClientEnv : Type := {
  brokerEnv : Env;
  asyncPopups : bool;
  preflightBrowserEnvironmentCheck : InteractionType → Outcome unit;
  preflightInteractiveRequest :
    AcquisitionRequest → InteractionType → Outcome AcquisitionRequest;
  (* request ↦ { ...request, ...this.initializeBaseRequest(request) } *)
  initializeBaseRequest : AcquisitionRequest → AcquisitionRequest;
  (* initializeServerTelemetryManager and createSilentFlowClient *)
  createSilentFlowClient : string → Outcome unit;
  acquireCachedToken : AcquisitionRequest → Outcome BrokerAuthenticationResult;
  renewByRefreshToken : AcquisitionRequest → Outcome BrokerAuthenticationResult;
  popupAsync : AcquisitionRequest → Outcome BrokerAuthenticationResult;
  super_acquireTokenPopup : AcquisitionRequest → Outcome BrokerAuthenticationResult;
  super_handleRedirect : option string → Outcome (option BrokerAuthenticationResult);
  sendSilentRefreshRequest : AcquisitionRequest → Outcome BrokerAuthenticationResult;
  sendPopupRequest : AcquisitionRequest → Outcome BrokerAuthenticationResult;
  sendHandleRedirectRequest : Outcome (option BrokerAuthenticationResult)
}.

(** A call on [this.broker]. *)
Definition onBroker {A} (b : Broker) (m : M Broker A) : M Client A :=
  λ c,
    let r := m b in
    mkRun (trace r)
      {| broker := Some (final r); embeddedApp := embeddedApp c;
         client_activeAccount := client_activeAccount c |}
      (outcome r).

Definition withAccountAndRefresh (acct : AccountInfo) (refresh : bool)
    (r : AcquisitionRequest) : AcquisitionRequest :=
  {| req_authority := req_authority r; req_scopes := req_scopes r;
     req_account := Some acct; req_state := req_state r; req_nonce := req_nonce r;
     redirectUri := redirectUri r; embeddedAppClientId := embeddedAppClientId r;
     embeddedAppRedirectUri := embeddedAppRedirectUri r;
     brokerRedirectUri := brokerRedirectUri r; forceRefresh := refresh |}.

(** The [try] block both [acquireTokenSilent] start with. *)
Definition cachedTokenAttempt (cenv : ClientEnv) (silentRequest : AcquisitionRequest)
  : M Client BrokerAuthenticationResult :=
  emit CreateSilentFlowClient ;;
  await (createSilentFlowClient cenv (req_authority silentRequest)) ;;
  emit (AcquireCachedToken silentRequest) ;;
  cachedToken ← await (acquireCachedToken cenv silentRequest) ;
  emit (EmitEvent ACQUIRE_TOKEN_SUCCESS Silent) ;;
  mret cachedToken.

Module PublicClientApplication.

Definition handleRedirectPromise (cenv : ClientEnv)
  : M Client (option BrokerAuthenticationResult) :=
  c ← get ;
  match broker c with
  | Some b =>
      emit (BrokerHandleRedirectPromise None) ;;
      onBroker b (handleRedirectPromise (brokerEnv cenv) None)
  | None =>
      if bonded c then
        emit SendHandleRedirectRequest ;;
        await (sendHandleRedirectRequest cenv)
      else
        emit (SuperHandleRedirectPromise None) ;;
        await (super_handleRedirect cenv None)
  end.

Definition acquireTokenPopup (cenv : ClientEnv) (request : AcquisitionRequest)
  : M Client BrokerAuthenticationResult :=
  c ← get ;
  if bonded c then
    emit (SendPopupRequest request) ;;
    await (sendPopupRequest cenv request)
  else
    emit (SuperAcquireTokenPopup request) ;;
    await (super_acquireTokenPopup cenv request).

Definition acquireTokenSilent (cenv : ClientEnv) (request : AcquisitionRequest)
  : M Client BrokerAuthenticationResult :=
  emit (PreflightBrowserEnvironmentCheck Silent) ;;
  await (preflightBrowserEnvironmentCheck cenv Silent) ;;
  let silentRequest := initializeBaseRequest cenv request in
  emit (EmitEvent ACQUIRE_TOKEN_START Silent) ;;
  c ← get ;
  if bonded c then
    emit (SendSilentRefreshRequest request) ;;
    await (sendSilentRefreshRequest cenv request)
  else
    tryCatch
      (cachedTokenAttempt cenv silentRequest)
      (λ e,
         tryCatch
           (emit (AcquireTokenByRefreshToken request) ;;
            tokenRenewalResult ← await (renewByRefreshToken cenv request) ;
            emit (EmitEvent ACQUIRE_TOKEN_SUCCESS Silent) ;;
            mret tokenRenewalResult)
           (λ tokenRenewalError,
              emit (EmitEvent ACQUIRE_TOKEN_FAILURE Silent) ;;
              throw tokenRenewalError)).

End PublicClientApplication.

Module ExperimentalClientApplication.

Definition handleRedirectPromise (cenv : ClientEnv) (hash : option string)
  : M Client (option BrokerAuthenticationResult) :=
  c ← get ;
  match broker c with
  | Some b =>
      emit (BrokerHandleRedirectPromise hash) ;;
      onBroker b (handleRedirectPromise (brokerEnv cenv) hash)
  | None =>
      if bonded c then
        emit SendHandleRedirectRequest ;;
        await (sendHandleRedirectRequest cenv)
      else
        emit (SuperHandleRedirectPromise hash) ;;
        await (super_handleRedirect cenv hash)
  end.

(** The function is not [async]: what it throws is turned into a rejected
    promise by its [catch]; the popup window itself is left out. *)
Definition acquireTokenPopup (cenv : ClientEnv) (request : AcquisitionRequest)
  : M Client BrokerAuthenticationResult :=
  emit (PreflightBrowserEnvironmentCheck Popup) ;;
  await (preflightBrowserEnvironmentCheck cenv Popup) ;;
  validRequest ← await (preflightInteractiveRequest cenv request Popup) ;
  c ← get ;
  if bonded c then
    emit (SendPopupRequest validRequest) ;;
    await (sendPopupRequest cenv validRequest)
  else
    emit (UpdateCacheEntries (default "" (req_state validRequest))
            (req_nonce validRequest) (req_authority validRequest)) ;;
    emit (AcquireTokenPopupAsync validRequest) ;;
    await (popupAsync cenv validRequest).

Definition acquireTokenSilent (cenv : ClientEnv) (request : AcquisitionRequest)
  : M Client BrokerAuthenticationResult :=
  emit (PreflightBrowserEnvironmentCheck Silent) ;;
  await (preflightBrowserEnvironmentCheck cenv Silent) ;;
  c ← get ;
  let accountObj :=
    match req_account request with
    | Some a => Some a
    | None => client_activeAccount c
    end in
  match accountObj with
  | None => throw NoAccountError
  | Some acct =>
      let silentRequest :=
        withAccountAndRefresh acct (forceRefresh request || false)
          (initializeBaseRequest cenv request) in
      emit (EmitEvent ACQUIRE_TOKEN_START Silent) ;;
      result ←
        tryCatch
          (cachedToken ← cachedTokenAttempt cenv silentRequest ;
           mret (Returned cachedToken))
          (λ e,
             tryCatch
               (c ← get ;
                if bonded c then
                  (* the promise is returned from inside the [try], not awaited *)
                  emit (SendSilentRefreshRequest request) ;;
                  mret (sendSilentRefreshRequest cenv request)
                else
                  emit (AcquireTokenByRefreshToken silentRequest) ;;
                  tokenRenewalResult ← await (renewByRefreshToken cenv silentRequest) ;
                  emit (EmitEvent ACQUIRE_TOKEN_SUCCESS Silent) ;;
                  mret (Returned tokenRenewalResult))
               (λ tokenRenewalError,
                  emit (EmitEvent ACQUIRE_TOKEN_FAILURE Silent) ;;
                  throw tokenRenewalError)) ;
      await result
  end.

End ExperimentalClientApplication.

(** ** Reading traces *)

(** A read or a write of the broker's response cache. *)
Definition isCacheAccess (a : Action) : bool :=
  match a with
  | GetBrokerResponseByThumbprint _ _ | GetBrokerResponseByOrigin _
  | SetMemoryCache _ _ => true
  | _ => false
  end.

(** A silent renewal by the refresh-token exchange. *)
Definition isRenewal (a : Action) : bool :=
  match a with
  | AcquireTokenByRefreshToken _ => true
  | _ => false
  end.

(** The start of a popup or redirect flow. *)
Definition isInteractive (a : Action) : bool :=
  match a with
  | AcquireTokenPopupAsync _ | AcquireTokenRedirectAsync _
  | SuperAcquireTokenPopup _ | SendPopupRequest _ => true
  | _ => false
  end.

(** An acquisition run by this application itself: a lookup in its token
    cache, or one that goes to the network. *)
Definition isLocalAcquisition (a : Action) : bool :=
  match a with
  | AcquireCachedToken _ | AcquireTokenByRefreshToken _ | AcquireTokenByIframe _
  | AcquireTokenPopupAsync _ | AcquireTokenRedirectAsync _
  | SuperAcquireTokenPopup _ | SuperHandleRedirectPromise _
  | BrokerHandleRedirectPromise _ => true
  | _ => false
  end.

(** An acquisition that goes to the network collaborator. *)
Definition isNetworkAcquisition (a : Action) : bool :=
  match a with
  | AcquireTokenByRefreshToken _ | AcquireTokenByIframe _
  | AcquireTokenPopupAsync _ | AcquireTokenRedirectAsync _
  | SuperAcquireTokenPopup _ | SuperHandleRedirectPromise _ => true
  | _ => false
  end.

(** A call forwarded to the broker. *)
Definition isForwarded (a : Action) : bool :=
  match a with
  | SendSilentRefreshRequest _ | SendPopupRequest _ | SendHandleRedirectRequest => true
  | _ => false
  end.

(** What happens on the channels of brokered requests. *)
Definition isPortAction (a : Action) : bool :=
  match a with
  | PostMessage _ _ | ClosePort _ => true
  | _ => false
  end.

(** A response sent, on a channel or to a window. *)
Definition isResponse (a : Action) : bool :=
  match a with
  | PostMessage _ _ | PostToSource _ _ => true
  | _ => false
  end.

(** ** Concrete collaborators for the examples *)

(** Base64 (RFC 4648) on byte strings, as a [CryptoUtils] to run examples
    with. *)
Module Base64.

Definition alphabet : string :=
  "ABCDEFGHIJKLMNOPQRSTUVWXYZabcdefghijklmnopqrstuvwxyz0123456789+/".

Definition pad : ascii := "="%char.

Definition sextetChar (n : N) : ascii :=
  match String.get (N.to_nat n) alphabet with
  | Some c => c
  | None => pad
  end.

Fixpoint indexOf (c : ascii) (s : string) (i : N) : option N :=
  match s with
  | EmptyString => None
  | String c' rest => if Ascii.eqb c c' then Some i else indexOf c rest (N.succ i)
  end.

Definition charSextet (c : ascii) : option N := indexOf c alphabet 0%N.

Definition byte (c : ascii) : N := N_of_ascii c.
Definition char (n : N) : ascii := ascii_of_N (n mod 256).

Fixpoint encode (s : string) : string :=
  match s with
  | EmptyString => EmptyString
  | String a EmptyString =>
      let n := (byte a * 16)%N in
      String (sextetChar (n / 64)) (String (sextetChar (n mod 64))
        (String pad (String pad EmptyString)))
  | String a (String b EmptyString) =>
      let n := (byte a * 1024 + byte b * 4)%N in
      String (sextetChar (n / 4096)) (String (sextetChar (n / 64 mod 64))
        (String (sextetChar (n mod 64)) (String pad EmptyString)))
  | String a (String b (String c rest)) =>
      let n := (byte a * 65536 + byte b * 256 + byte c)%N in
      String (sextetChar (n / 262144)) (String (sextetChar (n / 4096 mod 64))
        (String (sextetChar (n / 64 mod 64)) (String (sextetChar (n mod 64))
           (encode rest))))
  end.

Fixpoint decode (s : string) : Outcome string :=
  match s with
  | EmptyString => Returned EmptyString
  | String c1 (String c2 (String c3 (String c4 rest))) =>
      match charSextet c1, charSextet c2 with
      | Some s1, Some s2 =>
          if Ascii.eqb c3 pad then
            if Ascii.eqb c4 pad && bool_decide (rest = EmptyString)
            then Returned (String (char ((s1 * 64 + s2) / 16)) EmptyString)
            else Thrown (OtherError "InvalidCharacterError")
          else
            match charSextet c3 with
            | Some s3 =>
                if Ascii.eqb c4 pad then
                  if bool_decide (rest = EmptyString) then
                    let n := (s1 * 4096 + s2 * 64 + s3)%N in
                    Returned (String (char (n / 1024)) (String (char (n / 4)) EmptyString))
                  else Thrown (OtherError "InvalidCharacterError")
                else
                  match charSextet c4, decode rest with
                  | Some s4, Returned tail =>
                      let n := (s1 * 262144 + s2 * 4096 + s3 * 64 + s4)%N in
                      Returned (String (char (n / 65536)) (String (char (n / 256))
                                  (String (char n) tail)))
                  | _, _ => Thrown (OtherError "InvalidCharacterError")
                  end
            | None => Thrown (OtherError "InvalidCharacterError")
            end
      | _, _ => Thrown (OtherError "InvalidCharacterError")
      end
  | _ => Thrown (OtherError "InvalidCharacterError")
  end.

End Base64.

(** JSON for objects of string properties whose names and values need no
    escaping, as a [JSON] to run examples with. *)
Module FlatJson.

Definition quote : ascii := ascii_of_nat 34.

Definition quoted (s : string) : string := String quote (s +:+ String quote EmptyString).

Definition member (kv : string * string) : string :=
  quoted kv.1 +:+ ":" +:+ quoted kv.2.

Fixpoint members (kvs : list (string * string)) : string :=
  match kvs with
  | [] => ""
  | [kv] => member kv
  | kv :: rest => member kv +:+ "," +:+ members rest
  end.

Definition stringify (fields : gmap string string) : string :=
  "{" +:+ members (map_to_list fields) +:+ "}".

(** The text up to the closing quote, and what follows it. *)
Fixpoint readString (s : string) : option (string * string) :=
  match s with
  | EmptyString => None
  | String c rest =>
      if Ascii.eqb c quote then Some (EmptyString, rest)
      else match readString rest with
           | Some (text, rest') => Some (String c text, rest')
           | None => None
           end
  end.

Fixpoint readMembers (fuel : nat) (s : string) (acc : gmap string string)
  : option (gmap string string) :=
  match fuel with
  | O => None
  | S fuel =>
      match s with
      | String q rest =>
          if Ascii.eqb q quote then
            match readString rest with
            | Some (key, String ":" (String q' rest')) =>
                if Ascii.eqb q' quote then
                  match readString rest' with
                  | Some (value, String "," rest'') =>
                      readMembers fuel rest'' (<[key := value]> acc)
                  | Some (value, String "}" EmptyString) => Some (<[key := value]> acc)
                  | _ => None
                  end
                else None
            | _ => None
            end
          else None
      | EmptyString => None
      end
  end.

Definition parse (s : string) : Outcome ClientInfo.JsonValue :=
  if bool_decide (s = "null") then Returned ClientInfo.JsonNull
  else if bool_decide (s = "{}") then Returned (ClientInfo.JsonObject ∅)
  else
    match s with
    | String "{" rest =>
        match readMembers (String.length rest) rest ∅ with
        | Some fields => Returned (ClientInfo.JsonObject fields)
        | None => Thrown (OtherError "SyntaxError")
        end
    | _ => Thrown (OtherError "SyntaxError")
    end.

End FlatJson.

Definition exampleCodec : ClientInfo.Codec :=
  {| ClientInfo.base64Encode := Base64.encode;
     ClientInfo.base64Decode := Base64.decode;
     ClientInfo.JSON_stringify := FlatJson.stringify;
     ClientInfo.JSON_parse := FlatJson.parse |}.

(** Modelled from the spec: the validators of msg/req, which are not among
    the sources. "missing required fields yields null"; "AuthRequest:
    { interactionType, embeddedClientId, embeddedAppOrigin, request }", where
    "embeddedAppOrigin is taken from the transport layer, not from the
    payload"; a handshake negotiates the protocol version. *)
Definition validateHandshakeRequest (message : MessageEvent)
  : option BrokerHandshakeRequest :=
  match validateMessage message with
  | Some m =>
      match data m with
      | Some d =>
          if bool_decide (messageType d = Some (KnownType HANDSHAKE_REQUEST)) then
            match truthy (data_embeddedClientId d), truthy (data_version d) with
            | Some c, Some v => Some {| hs_embeddedClientId := c; hs_version := v |}
            | _, _ => None
            end
          else None
      | None => None
      end
  | None => None
  end.

Definition validateHandleRedirectRequest (message : MessageEvent) : bool :=
  match validateMessage message with
  | Some m =>
      match data m with
      | Some d =>
          bool_decide (messageType d = Some (KnownType HANDLE_REDIRECT_REQUEST))
          && bool_decide (is_Some (truthy (data_embeddedClientId d)))
      | None => false
      end
  | None => false
  end.

Definition validateAuthRequest (message : MessageEvent) : option BrokerAuthRequest :=
  match validateMessage message with
  | Some m =>
      match data m with
      | Some d =>
          if bool_decide (messageType d = Some (KnownType AUTH_REQUEST)) then
            match data_interactionType d, truthy (data_embeddedClientId d),
                  data_request d with
            | Some i, Some c, Some r =>
                Some {| interactionType := i; embeddedClientId := c;
                        embeddedAppOrigin := origin m; request := r |}
            | _, _, _ => None
            end
          else None
      | None => None
      end
  | None => None
  end.

(** An embedded application at [https://app.example] and the response the
    broker holds for it. *)
Definition exampleAccount : AccountInfo :=
  {| homeAccountId := "uid.utid"; username := "user@app.example" |}.

Definition exampleResult : BrokerAuthenticationResult :=
  {| account := Some exampleAccount;
     accessToken := "token-for-app";
     tokensToCache := Some (CacheRecord "id, access and refresh token");
     responseThumbprint :=
       {| authority := "https://login.example/common/";
          clientId := "embedded-app";
          scopes := ["openid"; "profile"] |} |}.

(** A response meant for the broker itself. *)
Definition exampleBrokerResult : BrokerAuthenticationResult :=
  {| account := Some exampleAccount;
     accessToken := "token-for-broker";
     tokensToCache := None;
     responseThumbprint :=
       {| authority := "https://login.example/common/";
          clientId := "broker-app";
          scopes := ["openid"] |} |}.

(** In the examples a result is serialised by its access token, and the two
    results above are the ones that can be read back. *)
Definition exampleStringify (r : BrokerAuthenticationResult) : string :=
  "{accessToken:" +:+ accessToken r +:+ "}".

Definition exampleParse (s : string) : Outcome BrokerAuthenticationResult :=
  match List.find (λ r, bool_decide (exampleStringify r = s))
          [exampleResult; exampleBrokerResult] with
  | Some r => Returned r
  | None => Thrown (OtherError "SyntaxError")
  end.

Definition exampleEnv (preferred : option InteractionType)
    (redirectOutcome : Outcome (option BrokerAuthenticationResult))
    (renewal : Outcome BrokerAuthenticationResult) : Env :=
  {| packageVersion := "2.14.2";
     preferredInteractionType := preferred;
     getRedirectUri := "https://broker.example/";
     BrokerHandshakeRequest_validate := validateHandshakeRequest;
     BrokerHandleRedirectRequest_validate := validateHandleRedirectRequest;
     BrokerAuthRequest_validate := validateAuthRequest;
     JSON_stringify := exampleStringify;
     JSON_parse := exampleParse;
     cachedForOrigin := λ o _, bool_decide (o = "https://app.example");
     parseRequestState := λ s, Returned (Some {| userRequestState := s |});
     setRequestState := λ st bs,
       Returned ("broker|" +:+ default "" st +:+ "|" +:+ brokeredOrigin bs);
     acquireTokenByRefreshToken := λ _, renewal;
     acquireTokenByIframe := λ _, Thrown (InteractionRequiredAuthError "login_required");
     acquireTokenPopupAsync := λ _, Returned exampleResult;
     super_handleRedirectPromise := λ _, redirectOutcome |}.

Definition exampleRequest (scopeList : list string) (acct : option AccountInfo)
  : AcquisitionRequest :=
  {| req_authority := "https://login.example/common/";
     req_scopes := scopeList;
     req_account := acct;
     req_state := None;
     req_nonce := "nonce";
     redirectUri := None;
     embeddedAppClientId := None;
     embeddedAppRedirectUri := None;
     brokerRedirectUri := None;
     forceRefresh := false |}.

Definition examplePayload (tag : BrokerMessageType) : MessageData :=
  {| messageType := Some (KnownType tag);
     data_version := Some "2.14.2";
     data_brokerOrigin := None;
     data_embeddedClientId := Some "embedded-app";
     data_interactionType := Some Popup;
     data_request := Some (exampleRequest ["profile"; "openid"] None) |}.

(** A message from the embedded application, with a channel. *)
Definition exampleMessage (tag : BrokerMessageType) : MessageEvent :=
  {| data := Some (examplePayload tag);
     origin := "https://app.example";
     ports := [7] |}.

Definition emptyBroker : Broker :=
  {| memoryCache := ∅; activeAccount := None; currentBrokerRedirectResponse := None |}.

Definition exampleClientEnv (cached renewal : Outcome BrokerAuthenticationResult)
  : ClientEnv :=
  {| brokerEnv := exampleEnv None (Returned None) renewal;
     asyncPopups := true;
     preflightBrowserEnvironmentCheck := λ _, Returned tt;
     preflightInteractiveRequest := λ r _, Returned r;
     initializeBaseRequest := λ r, r;
     createSilentFlowClient := λ _, Returned tt;
     acquireCachedToken := λ _, cached;
     renewByRefreshToken := λ _, renewal;
     popupAsync := λ _, Returned exampleBrokerResult;
     super_acquireTokenPopup := λ _, Returned exampleBrokerResult;
     super_handleRedirect := λ _, Returned None;
     sendSilentRefreshRequest := λ _, Returned exampleResult;
     sendPopupRequest := λ _, Returned exampleResult;
     sendHandleRedirectRequest := Returned (Some exampleResult) |}.

Definition standaloneClient (acct : option AccountInfo) : Client :=
  {| broker := None; embeddedApp := None; client_activeAccount := acct |}.

Definition bondedClient (acct : option AccountInfo) : Client :=
  {| broker := None;
     embeddedApp := Some {| brokerConnectionEstablished := true |};
     client_activeAccount := acct |}.

(** The same event with another [brokerOrigin] written in its payload. *)
Definition withPayloadOrigin (payloadOrigin : option string) (message : MessageEvent)
  : MessageEvent :=
  {| data :=
       match data message with
       | Some d =>
           Some {| messageType := messageType d;
                   data_version := data_version d;
                   data_brokerOrigin := payloadOrigin;
                   data_embeddedClientId := data_embeddedClientId d;
                   data_interactionType := data_interactionType d;
                   data_request := data_request d |}
       | None => None
       end;
     origin := origin message;
     ports := ports message |}.

(** The attempt to return a cached token, by how it ends. *)
Definition localLookup (cenv : ClientEnv) (silentRequest : AcquisitionRequest)
  : Outcome BrokerAuthenticationResult :=
  match createSilentFlowClient cenv (req_authority silentRequest) with
  | Returned _ => acquireCachedToken cenv silentRequest
  | Thrown e => Thrown e
  end.

(** Every [sensitive] action of a trace comes after a [gate] action. *)
Definition precededBy (gate sensitive : Action → bool) (tr : list Action) : Prop :=
  ∀ (pre : list Action) a post,
    tr = (pre ++ a :: post)%list → sensitive a = true → ∃ g, g ∈ pre ∧ gate g = true.

Fixpoint guardedBy (gate sensitive : Action → bool) (tr : list Action) : bool :=
  match tr with
  | [] => true
  | a :: rest => negb (sensitive a) && (gate a || guardedBy gate sensitive rest)
  end.

Definition isAwait (a : Action) : bool :=
  match a with
  | AwaitRedirectResponse => true
  | _ => false
  end.

Definition isSettled (a : Action) : bool :=
  match a with
  | RedirectResponseSettled => true
  | _ => false
  end.

(** A lookup in the response cache. *)
Definition isCacheProbe (a : Action) : bool :=
  match a with
  | GetBrokerResponseByThumbprint _ _ | GetBrokerResponseByOrigin _ => true
  | _ => false
  end.

(** Exactly one message is posted on the channel, which is then closed, and
    nothing else happens on any channel. *)
Definition answeredOnce (clientPort : Port) (r : Run Broker unit) : Prop :=
  ∃ message,
    List.filter isPortAction (trace r)
    = [PostMessage clientPort message; ClosePort clientPort].

(** The request [brokeredRedirectRequest] and [brokeredPopupRequest] hand to
    [initializeBrokeredRequest]. *)
Definition interactiveRequestOf (env : Env) (validMessage : BrokerAuthRequest)
  : AcquisitionRequest :=
  withInteractiveParams (embeddedAppOrigin validMessage)
    (embeddedClientId validMessage) (getRedirectUri env) (request validMessage).

(** A computation none of whose runs does an action of the kind [P]. *)
Definition never {S A : Type} (P : Action → bool) (m : M S A) : Prop :=
  ∀ s, List.filter P (trace (m s)) = [].

(** A write to the response cache. *)
Definition isCacheWrite (a : Action) : bool :=
  match a with
  | SetMemoryCache _ _ => true
  | _ => false
  end.

(** The request [brokeredSilentRequest] renews the tokens with. *)
Definition silentRequestOf (validMessage : BrokerAuthRequest)
    (acct : option AccountInfo) : AcquisitionRequest :=
  withSilentParams (embeddedClientId validMessage) (embeddedAppOrigin validMessage)
    acct (request validMessage).

(** The same validated request with another interaction type. *)
Definition withInteractionType (t : InteractionType) (validMessage : BrokerAuthRequest)
  : BrokerAuthRequest :=
  {| interactionType := t;
     embeddedClientId := embeddedClientId validMessage;
     embeddedAppOrigin := embeddedAppOrigin validMessage;
     request := request validMessage |}.

(** The same validated request whose acquisition request carries other
    values in the three properties the broker sets itself. *)
Definition withRequestedRedirect (redirect client brokerRedirect : option string)
    (validMessage : BrokerAuthRequest) : BrokerAuthRequest :=
  {| interactionType := interactionType validMessage;
     embeddedClientId := embeddedClientId validMessage;
     embeddedAppOrigin := embeddedAppOrigin validMessage;
     request :=
       {| req_authority := req_authority (request validMessage);
          req_scopes := req_scopes (request validMessage);
          req_account := req_account (request validMessage);
          req_state := req_state (request validMessage);
          req_nonce := req_nonce (request validMessage);
          redirectUri := redirect;
          embeddedAppClientId := client;
          embeddedAppRedirectUri := embeddedAppRedirectUri (request validMessage);
          brokerRedirectUri := brokerRedirect;
          forceRefresh := forceRefresh (request validMessage) |} |}.

(** A lifecycle event of an acquisition. *)
Definition isEvent (a : Action) : bool :=
  match a with
  | EmitEvent _ _ => true
  | _ => false
  end.

(** ** Properties *)

(** *** Strings *)

Lemma split_not_nil (sep : ascii) (s : string) : split sep s ≠ [].
Proof.
  destruct s as [|c rest]; simpl; [discriminate|].
  destruct (Ascii.eqb c sep); [discriminate|].
  destruct (split sep rest); discriminate.
Qed.

Lemma join_cons_char (sep c : ascii) (seg : string) (segs : list string) :
  join sep (String c seg :: segs) = String c (join sep (seg :: segs)).
Proof. destruct segs; reflexivity. Qed.

Lemma join_split (sep : ascii) (s : string) : join sep (split sep s) = s.
Proof.
  induction s as [|c rest IH]; simpl; [reflexivity|].
  destruct (Ascii.eqb_spec c sep) as [->|Hne].
  - pose proof (split_not_nil sep rest) as Hnil.
    destruct (split sep rest) as [|seg segs]; [done|].
    simpl in *. by rewrite IH.
  - pose proof (split_not_nil sep rest) as Hnil.
    destruct (split sep rest) as [|seg segs]; [done|].
    rewrite join_cons_char. by rewrite IH.
Qed.

Lemma removelast_last_app {A} (l : list A) (x : A) :
  last l = Some x → (removelast l ++ [x])%list = l.
Proof.
  induction l as [|y l IH]; [discriminate|].
  destruct l as [|z l]; simpl in *.
  - by intros [= ->].
  - intros H. f_equal. by apply IH.
Qed.

(** *** ClientInfo *)

Lemma stripPolicyFromUid_keeps (uid authority : string) :
  last (split "-" uid) ≠ Some (ClientInfo.policyOf authority) →
  ClientInfo.stripPolicyFromUid uid authority = uid.
Proof.
  intros Hne. unfold ClientInfo.stripPolicyFromUid. simpl.
  by rewrite bool_decide_eq_false_2.
Qed.

Lemma stripPolicyFromUid_strips (uid authority : string) :
  last (split "-" uid) = Some (ClientInfo.policyOf authority) →
  ClientInfo.stripPolicyFromUid uid authority = join "-" (removelast (split "-" uid))
  ∧ join "-" (removelast (split "-" uid) ++ [ClientInfo.policyOf authority])%list = uid.
Proof.
  intros Heq. unfold ClientInfo.stripPolicyFromUid. simpl.
  rewrite bool_decide_eq_true_2 by done. split; [done|].
  rewrite removelast_last_app by done. apply join_split.
Qed.

Lemma ClientInfo_new_of_encoding (codec : ClientInfo.Codec) (c : ClientInfo.t)
    (authority : string) :
  let fields := <["uid" := ClientInfo.uid c]> (<["utid" := ClientInfo.utid c]> ∅) in
  let json := ClientInfo.JSON_stringify codec fields in
  ClientInfo.JSON_parse codec json = Returned (ClientInfo.JsonObject fields) →
  ClientInfo.base64Decode codec (ClientInfo.base64Encode codec json) = Returned json →
  ClientInfo.base64Encode codec json ≠ "" →
  ClientInfo.new codec (Some (ClientInfo.encodeClientInfo codec c)) authority
  = Returned (ClientInfo.make
                (ClientInfo.stripPolicyFromUid (ClientInfo.uid c) authority)
                (ClientInfo.utid c)).
Proof.
  intros fields json Hparse Hdecode Hnonempty.
  unfold ClientInfo.new, ClientInfo.encodeClientInfo.
  fold fields. fold json.
  unfold isEmpty. rewrite bool_decide_eq_false_2 by done.
  rewrite Hdecode, Hparse. unfold fields.
  rewrite lookup_insert_eq.
  rewrite lookup_insert_ne by done. rewrite lookup_insert_eq.
  reflexivity.
Qed.

(** C10, as amended: decoding an encoded [ClientInfo] gives back its [utid]
    and, unless the final [-]-separated segment of its [uid] is the policy
    that [stripPolicyFromUid] reads off the authority (the last [/]-separated
    segment, or the one before it when the last is empty), its [uid]; if it
    is, the [uid] comes back without that segment. An empty or null raw
    string gives empty [uid] and [utid], and nothing is thrown. *)
Theorem ClientInfo_encode_new_roundtrip (codec : ClientInfo.Codec) (c : ClientInfo.t)
    (authority : string) :
  let fields := <["uid" := ClientInfo.uid c]> (<["utid" := ClientInfo.utid c]> ∅) in
  let json := ClientInfo.JSON_stringify codec fields in
  ClientInfo.JSON_parse codec json = Returned (ClientInfo.JsonObject fields) →
  ClientInfo.base64Decode codec (ClientInfo.base64Encode codec json) = Returned json →
  ClientInfo.base64Encode codec json ≠ "" →
  let decoded := ClientInfo.new codec (Some (ClientInfo.encodeClientInfo codec c)) authority in
  let uidSegments := split "-" (ClientInfo.uid c) in
  let policy := ClientInfo.policyOf authority in
  (last uidSegments ≠ Some policy → decoded = Returned c)
  ∧ (last uidSegments = Some policy →
     decoded = Returned (ClientInfo.make (join "-" (removelast uidSegments))
                           (ClientInfo.utid c))
     ∧ join "-" (removelast uidSegments ++ [policy])%list = ClientInfo.uid c)
  ∧ ClientInfo.new codec None authority = Returned (ClientInfo.make "" "")
  ∧ ClientInfo.new codec (Some "") authority = Returned (ClientInfo.make "" "").
Proof.
  intros fields json Hparse Hdecode Hnonempty decoded uidSegments policy.
  pose proof (ClientInfo_new_of_encoding codec c authority Hparse Hdecode Hnonempty)
    as Hnew.
  fold decoded in Hnew.
  split; [|split; [|split; reflexivity]].
  - intros Hne. rewrite Hnew, stripPolicyFromUid_keeps by done. by destruct c.
  - intros Heq. destruct (stripPolicyFromUid_strips _ _ Heq) as [Hs Hj].
    split; [|done]. by rewrite Hnew, Hs.
Qed.

Lemma ClientInfo_encode_new_roundtrip_witness :
  ClientInfo.new exampleCodec
    (Some (ClientInfo.encodeClientInfo exampleCodec
             (ClientInfo.make "3f2c-9a71" "tenant-id")))
    "https://login.example/tfp/tenant/b2c_1_signin/"
  = Returned (ClientInfo.make "3f2c-9a71" "tenant-id").
Proof.
  apply (ClientInfo_encode_new_roundtrip exampleCodec
           (ClientInfo.make "3f2c-9a71" "tenant-id")
           "https://login.example/tfp/tenant/b2c_1_signin/");
    vm_compute; congruence.
Defined.

(** C10, as stated, fails: the authority's trailing non-empty URL segment is
    [login.example], the final segment of the uid [abc-] is empty, they
    differ, and yet the uid comes back as [abc]. *)
Lemma ClientInfo_trailing_segment_counterexample :
  let c := ClientInfo.make "abc-" "tenant-id" in
  let authority := "https://login.example//" in
  ClientInfo.trailingNonEmptySegment authority = Some "login.example"
  ∧ last (split "-" (ClientInfo.uid c)) = Some ""
  ∧ ClientInfo.new exampleCodec (Some (ClientInfo.encodeClientInfo exampleCodec c)) authority
    = Returned (ClientInfo.make "abc" "tenant-id").
Proof. vm_compute. done. Qed.

(** *** Running the monad *)

(** Unfolds the monad and nothing else: the operations on maps and strings
    stay as they are written. *)
Ltac run :=
  cbv [mbind M_bind mret M_ret emit get modify await throw tryCatch
       postMessage close trace final outcome];
  cbn [app head].

Ltac state :=
  cbv [withMemoryCache withActiveAccount withRedirectResponse
       memoryCache activeAccount currentBrokerRedirectResponse].

(** *** Message validation *)

Lemma validateMessage_same (message validated : MessageEvent) :
  validateMessage message = Some validated → validated = message.
Proof.
  unfold validateMessage. intros H.
  destruct (data message) as [d|]; [|done].
  destruct (messageType d) as [[t|raw]|]; congruence.
Qed.

(** The envelope check sees the [messageType] only. *)
Lemma validateMessage_withPayloadOrigin (payloadOrigin : option string)
    (message : MessageEvent) :
  validateMessage (withPayloadOrigin payloadOrigin message)
  = withPayloadOrigin payloadOrigin <$> validateMessage message.
Proof.
  destruct message as [[[[[t|raw]|] v bo ec it rq]|] o p]; reflexivity.
Qed.

(** A message the envelope check refuses is dropped by the broker: nothing
    is dispatched, logged or sent, and nothing is thrown. *)
Lemma malformed_message_dropped (env : Env) (message : MessageEvent) (b : Broker) :
  validateMessage message = None →
  handleBrokerMessage env message b = mkRun [] b (Returned tt).
Proof. intros H. unfold handleBrokerMessage. by rewrite H. Qed.

(** So is one whose type the broker has no handler for. *)
Lemma unhandled_type_dropped (env : Env) (message : MessageEvent) (d : MessageData)
    (t : BrokerMessageType) (b : Broker) :
  data message = Some d →
  messageType d = Some (KnownType t) →
  t ∈ [HANDSHAKE_RESPONSE; AUTH_RESPONSE; REDIRECT_RESPONSE] →
  handleBrokerMessage env message b = mkRun [] b (Returned tt).
Proof.
  intros Hd Ht Hin. unfold handleBrokerMessage, validateMessage.
  rewrite Hd, Ht. simpl. rewrite Hd, Ht.
  set_unfold in Hin. by destruct Hin as [->|[->|[->|[]]]].
Qed.

(** X3: shape is checked before trust. A handshake response that is refused
    for its shape (the envelope check refuses it, it is of another type, or
    its version is missing or empty) yields null and never the
    untrusted-broker error, from whatever origin it comes and whatever
    domains are trusted. *)
Lemma malformed_handshake_response_null (matchPattern : string → string → bool)
    (message : MessageEvent) (trusted : list string) :
  (validateMessage message = None
   ∨ (∃ d, data message = Some d ∧
           (messageType d ≠ Some (KnownType HANDSHAKE_RESPONSE)
            ∨ truthy (data_version d) = None))) →
  BrokerHandshakeResponse_validate matchPattern message trusted = Returned None.
Proof.
  unfold BrokerHandshakeResponse_validate.
  intros [Hnone|(d & Hd & Hbad)].
  - by rewrite Hnone.
  - destruct (validateMessage message) as [m|] eqn:Hv; [|done].
    apply validateMessage_same in Hv as ->. rewrite Hd.
    destruct Hbad as [Htype|Hversion].
    + by rewrite bool_decide_eq_false_2.
    + rewrite Hversion. by case_bool_decide.
Qed.

(** A handshake response of the right shape from an origin that no trusted
    domain pattern matches raises the untrusted-broker error. *)
Lemma untrusted_handshake_response_raises (matchPattern : string → string → bool)
    (message : MessageEvent) (d : MessageData) (v : string) (trusted : list string) :
  data message = Some d →
  messageType d = Some (KnownType HANDSHAKE_RESPONSE) →
  truthy (data_version d) = Some v →
  (∀ domain, domain ∈ trusted → matchPattern domain (origin message) = false) →
  BrokerHandshakeResponse_validate matchPattern message trusted
  = Thrown UntrustedBrokerError.
Proof.
  intros Hd Ht Hv Hnomatch.
  unfold BrokerHandshakeResponse_validate, validateMessage.
  rewrite Hd, Ht. simpl. rewrite Hd, Ht, Hv.
  rewrite bool_decide_eq_true_2 by done.
  replace (List.filter _ trusted) with (@nil string); [done|].
  symmetry. induction trusted as [|x xs IH]; [done|]. simpl.
  rewrite Hnomatch by set_solver. apply IH. intros; apply Hnomatch; set_solver.
Qed.

(** The handshake handler answers whatever [BrokerHandshakeRequest.validate]
    says of the request. *)
Lemma handleBrokerHandshake_answers (env : Env) (clientMessage : MessageEvent)
    (b : Broker) :
  let run := handleBrokerHandshake env clientMessage b in
  List.filter isResponse (trace run)
  = [PostToSource (origin clientMessage)
       (HandshakeResponseMessage {| version := packageVersion env; brokerOrigin := "" |})]
  ∧ outcome run = Returned tt.
Proof. done. Qed.

(** C5, where the code departs from it: a handshake request that lacks its
    required fields passes the envelope check, its own validation yields
    null, and the broker answers it all the same. *)
Theorem handshake_request_answered_when_invalid :
  let env := exampleEnv None (Returned None) (Thrown NoAccountError) in
  let message :=
    {| data := Some {| messageType := Some (KnownType HANDSHAKE_REQUEST);
                       data_version := None;
                       data_brokerOrigin := None;
                       data_embeddedClientId := None;
                       data_interactionType := None;
                       data_request := None |};
       origin := "https://unknown.example";
       ports := [] |} in
  BrokerHandshakeRequest_validate env message = None
  ∧ trace (handleBrokerMessage env message emptyBroker)
    = [Log LogVerbose "Broker handshake request received";
       Log LogVerbose "Broker handshake validated: null";
       PostToSource "https://unknown.example"
         (HandshakeResponseMessage {| version := "2.14.2"; brokerOrigin := "" |});
       Log LogInfo "Sending handshake response: [object Object]"].
Proof. done. Qed.

(** C6: a validated handshake response carries the origin the transport
    observed, and the [brokerOrigin] written in the payload has no part in
    it: with any other value there, validation gives the same response. *)
Theorem handshake_response_origin_from_transport
    (matchPattern : string → string → bool) (message : MessageEvent)
    (trusted : list string) (response : BrokerHandshakeResponse) :
  BrokerHandshakeResponse_validate matchPattern message trusted
  = Returned (Some response) →
  brokerOrigin response = origin message
  ∧ ∀ payloadOrigin,
      BrokerHandshakeResponse_validate matchPattern
        (withPayloadOrigin payloadOrigin message) trusted
      = Returned (Some response).
Proof.
  intros Hvalid. split.
  - revert Hvalid. unfold BrokerHandshakeResponse_validate.
    destruct (validateMessage message) as [m|] eqn:Hv; [|done].
    apply validateMessage_same in Hv as ->.
    destruct (data message) as [d|]; [|done].
    case_bool_decide; [|done].
    destruct (truthy (data_version d)); [|done].
    destruct (_ <=? _)%nat; [done|]. by intros [= <-].
  - intros payloadOrigin. rewrite <- Hvalid.
    unfold BrokerHandshakeResponse_validate.
    rewrite validateMessage_withPayloadOrigin.
    destruct (validateMessage message) as [m|] eqn:Hv; [|done].
    apply validateMessage_same in Hv as ->. simpl.
    by destruct (data message) as [d|].
Qed.

Lemma handshake_response_origin_from_transport_witness :
  let message :=
    {| data := Some {| messageType := Some (KnownType HANDSHAKE_RESPONSE);
                       data_version := Some "2.14.2";
                       data_brokerOrigin := Some "https://evil.example";
                       data_embeddedClientId := None;
                       data_interactionType := None;
                       data_request := None |};
       origin := "https://broker.example";
       ports := [] |} in
  let response := {| version := "2.14.2"; brokerOrigin := "https://broker.example" |} in
  brokerOrigin response = origin message
  ∧ ∀ payloadOrigin,
      BrokerHandshakeResponse_validate String.eqb
        (withPayloadOrigin payloadOrigin message) ["https://broker.example"]
      = Returned (Some response).
Proof.
  apply (handshake_response_origin_from_transport String.eqb).
  reflexivity.
Defined.

(** *** Traces *)

Lemma guardedBy_sound (gate sensitive : Action → bool) (tr : list Action) :
  guardedBy gate sensitive tr = true → precededBy gate sensitive tr.
Proof.
  induction tr as [|x tr IH]; intros Hg pre a post Heq Hs.
  - by destruct pre.
  - simpl in Hg. apply andb_prop in Hg as [Hx Hrest].
    destruct pre as [|y pre]; simpl in Heq; injection Heq as -> ->.
    + rewrite Hs in Hx. discriminate.
    + destruct (gate y) eqn:Hy.
      * exists y. split; [set_solver|done].
      * simpl in Hrest. destruct (IH Hrest pre a post eq_refl Hs) as (g & Hin & Hgate).
        exists g. split; [set_solver|done].
Qed.

(** *** Redirect completion *)

(** C9: when the redirect completes with a response that carries
    [tokensToCache], the response is stored, serialised, in the in-memory
    cache under the key of its thumbprint, its account becomes the active
    account and the call returns null; a response without [tokensToCache] is
    returned to the broker application, and the cache and the active account
    are left as they were. The stored promise is cleared either way. *)
Theorem handleRedirectPromise_caches_or_returns (env : Env) (hash : option string)
    (b : Broker) (response : BrokerAuthenticationResult) :
  super_handleRedirectPromise env hash = Returned (Some response) →
  let run := handleRedirectPromise env hash b in
  match tokensToCache response with
  | Some _ =>
      memoryCache (final run)
      = <[generateBrokerResponseKey (responseThumbprint response) :=
            JSON_stringify env response]> (memoryCache b)
      ∧ activeAccount (final run) = account response
      ∧ outcome run = Returned None
  | None =>
      outcome run = Returned (Some response)
      ∧ memoryCache (final run) = memoryCache b
      ∧ activeAccount (final run) = activeAccount b
      ∧ List.filter isCacheAccess (trace run) = []
  end
  ∧ currentBrokerRedirectResponse (final run) = None.
Proof.
  intros Hsuper run. subst run.
  unfold handleRedirectPromise, waitForBrokeredResponse, setMemoryCache,
    setActiveAccount.
  rewrite Hsuper.
  destruct (tokensToCache response) as [tokens|] eqn:Htokens;
    run; rewrite ?Htokens; state; done.
Qed.

Lemma handleRedirectPromise_caches_or_returns_witness :
  let env := exampleEnv None (Returned (Some exampleResult)) (Thrown NoAccountError) in
  let run := handleRedirectPromise env None emptyBroker in
  (memoryCache (final run)
   = <[generateBrokerResponseKey (responseThumbprint exampleResult) :=
         JSON_stringify env exampleResult]> ∅
   ∧ activeAccount (final run) = Some exampleAccount
   ∧ outcome run = Returned None)
  ∧ currentBrokerRedirectResponse (final run) = None.
Proof.
  exact (handleRedirectPromise_caches_or_returns
           (exampleEnv None (Returned (Some exampleResult)) (Thrown NoAccountError))
           None emptyBroker exampleResult eq_refl).
Defined.

(** *** The response cache *)

Lemma generateBrokerResponseKey_scopes_as_set (t1 t2 : RequestThumbprint) :
  authority t1 = authority t2 →
  clientId t1 = clientId t2 →
  (∀ s, s ∈ scopes t1 ↔ s ∈ scopes t2) →
  generateBrokerResponseKey t1 = generateBrokerResponseKey t2.
Proof.
  intros Ha Hc Hs. unfold generateBrokerResponseKey. rewrite Ha, Hc.
  f_equal. apply set_eq. intros s. rewrite !elem_of_list_to_set. apply Hs.
Qed.

(** What a lookup by thumbprint returns from a cache that holds an entry for
    the thumbprint's key and the origin. *)
Lemma getBrokerResponseByThumbprint_hit (env : Env) (thumbprint : RequestThumbprint)
    (embeddedOrigin : string) (b : Broker) (cached : string) :
  memoryCache b !! generateBrokerResponseKey thumbprint = Some cached →
  cachedForOrigin env embeddedOrigin cached = true →
  getBrokerResponseByThumbprint env thumbprint embeddedOrigin b
  = mkRun [GetBrokerResponseByThumbprint thumbprint embeddedOrigin]
      (withMemoryCache (delete (generateBrokerResponseKey thumbprint)) b)
      (Returned (Some cached)).
Proof.
  intros Hlookup Horigin. unfold getBrokerResponseByThumbprint. run.
  rewrite Hlookup, Horigin. reflexivity.
Qed.

(** C8: for a brokered request with the authority and the client id of a
    cached response and a scope list with the same elements, in any order
    and with any repetitions, the thumbprint the broker looks up with has
    the key the response was stored under, and the lookup finds the
    response. *)
Theorem thumbprint_scope_order_irrelevant (env : Env) (b : Broker)
    (written : BrokerAuthenticationResult) (validMessage : BrokerAuthRequest) :
  req_authority (request validMessage) = authority (responseThumbprint written) →
  embeddedClientId validMessage = clientId (responseThumbprint written) →
  (∀ s, s ∈ req_scopes (request validMessage) ↔
        s ∈ scopes (responseThumbprint written)) →
  generateBrokerResponseKey (reqThumbprintOf validMessage)
  = generateBrokerResponseKey (responseThumbprint written)
  ∧ (is_Some (tokensToCache written) →
     cachedForOrigin env (embeddedAppOrigin validMessage) (JSON_stringify env written)
     = true →
     let stored := final (waitForBrokeredResponse env (Returned (Some written)) b) in
     outcome (getBrokerResponseByThumbprint env (reqThumbprintOf validMessage)
                (embeddedAppOrigin validMessage) stored)
     = Returned (Some (JSON_stringify env written))).
Proof.
  intros Ha Hc Hs.
  assert (generateBrokerResponseKey (reqThumbprintOf validMessage)
          = generateBrokerResponseKey (responseThumbprint written)) as Hkey
    by (apply generateBrokerResponseKey_scopes_as_set; done).
  split; [done|].
  intros [tokens Htokens] Horigin stored.
  rewrite (getBrokerResponseByThumbprint_hit env _ _ stored (JSON_stringify env written));
    [done| |done].
  subst stored. unfold waitForBrokeredResponse, setMemoryCache, setActiveAccount.
  run. rewrite Htokens. run. state. rewrite Hkey. apply lookup_insert_eq.
Qed.

Lemma thumbprint_scope_order_irrelevant_witness :
  let env := exampleEnv None (Returned None) (Thrown NoAccountError) in
  let validMessage :=
    {| interactionType := Silent;
       embeddedClientId := "embedded-app";
       embeddedAppOrigin := "https://app.example";
       request := exampleRequest ["profile"; "openid"; "profile"] None |} in
  generateBrokerResponseKey (reqThumbprintOf validMessage)
  = generateBrokerResponseKey (responseThumbprint exampleResult)
  ∧ (is_Some (tokensToCache exampleResult) →
     cachedForOrigin env (embeddedAppOrigin validMessage)
       (JSON_stringify env exampleResult) = true →
     let stored :=
       final (waitForBrokeredResponse env (Returned (Some exampleResult)) emptyBroker) in
     outcome (getBrokerResponseByThumbprint env (reqThumbprintOf validMessage)
                (embeddedAppOrigin validMessage) stored)
     = Returned (Some (JSON_stringify env exampleResult))).
Proof.
  apply (thumbprint_scope_order_irrelevant
           (exampleEnv None (Returned None) (Thrown NoAccountError)) emptyBroker
           exampleResult); [reflexivity|reflexivity|].
  intros s. simpl. set_unfold. tauto.
Defined.

(** *** The auth-request handler *)

Section Bind.
Context {S A B : Type}.
Implicit Types (m : M S A) (f : A → M S B) (k : M S B) (s : S).

Lemma trace_bind_returned m f s a :
  outcome (m s) = Returned a →
  trace ((m ≫= f) s) = (trace (m s) ++ trace (f a (final (m s))))%list.
Proof.
  unfold mbind, M_bind. destruct (m s) as [tr s' o]. cbn [outcome trace final].
  intros ->. by destruct (f a s').
Qed.

Lemma outcome_bind_returned m f s a :
  outcome (m s) = Returned a →
  outcome ((m ≫= f) s) = outcome (f a (final (m s))).
Proof.
  unfold mbind, M_bind. destruct (m s) as [tr s' o]. cbn [outcome trace final].
  intros ->. by destruct (f a s').
Qed.

Lemma final_bind_returned m f s a :
  outcome (m s) = Returned a →
  final ((m ≫= f) s) = final (f a (final (m s))).
Proof.
  unfold mbind, M_bind. destruct (m s) as [tr s' o]. cbn [outcome trace final].
  intros ->. by destruct (f a s').
Qed.

Lemma trace_bind_thrown m f s e :
  outcome (m s) = Thrown e → trace ((m ≫= f) s) = trace (m s).
Proof.
  unfold mbind, M_bind. destruct (m s) as [tr s' o]. cbn [outcome trace final].
  by intros ->.
Qed.

Lemma outcome_bind_thrown m f s e :
  outcome (m s) = Thrown e → outcome ((m ≫= f) s) = Thrown e.
Proof.
  unfold mbind, M_bind. destruct (m s) as [tr s' o]. cbn [outcome trace final].
  by intros ->.
Qed.

End Bind.

Lemma trace_emit_then {S B : Type} (a : Action) (k : M S B) (s : S) :
  trace ((emit a ;; k) s) = a :: trace (k s).
Proof. unfold mbind, M_bind, emit. by destruct (k s). Qed.

Lemma outcome_emit_then {S B : Type} (a : Action) (k : M S B) (s : S) :
  outcome ((emit a ;; k) s) = outcome (k s).
Proof. unfold mbind, M_bind, emit. by destruct (k s). Qed.

Lemma final_emit_then {S B : Type} (a : Action) (k : M S B) (s : S) :
  final ((emit a ;; k) s) = final (k s).
Proof. unfold mbind, M_bind, emit. by destruct (k s). Qed.

Lemma getBrokerResponseByThumbprint_trace (env : Env) (thumbprint : RequestThumbprint)
    (embeddedOrigin : string) (b : Broker) :
  trace (getBrokerResponseByThumbprint env thumbprint embeddedOrigin b)
  = [GetBrokerResponseByThumbprint thumbprint embeddedOrigin].
Proof.
  unfold getBrokerResponseByThumbprint.
  rewrite trace_emit_then. unfold get. run.
  destruct (memoryCache b !! _); [|done].
  by destruct (cachedForOrigin _ _ _).
Qed.

(** While the handler waits for the redirect completion, the only things
    done are the completion's own: the response is stored and the active
    account set. *)
Lemma awaitCurrentBrokerRedirectResponse_trace (env : Env) (b : Broker) :
  List.filter (λ a, isCacheProbe a || isLocalAcquisition a || isPortAction a)
    (trace (awaitCurrentBrokerRedirectResponse env b)) = [].
Proof.
  unfold awaitCurrentBrokerRedirectResponse, waitForBrokeredResponse,
    setMemoryCache, setActiveAccount.
  destruct b as [cache acct [[[r|]|e]|]]; try done.
  destruct r as [racct token [tokens|] thumbprint]; done.
Qed.

Lemma filter_nil_weaken (p q : Action → bool) (l : list Action) :
  List.filter p l = [] → (∀ a, q a = true → p a = true) → List.filter q l = [].
Proof.
  intros Hp Hpq. induction l as [|a l IH]; [done|].
  simpl in *. destruct (p a) eqn:Hpa; [done|].
  destruct (q a) eqn:Hqa; [|by apply IH].
  apply Hpq in Hqa. congruence.
Qed.

Lemma truthy_nonempty (s : string) : s ≠ "" → truthy (Some s) = Some s.
Proof. intros H. unfold truthy, isEmpty. by rewrite bool_decide_eq_false_2. Qed.

(** C3: a validated auth request whose thumbprint and origin hit the
    response cache, once a redirect completion in progress has been waited
    for, is answered with the cached result on its channel, which is then
    closed, straight after the lookup; the handler runs no acquisition, silent
    or interactive, and calls nothing that goes to the network. *)
Theorem cache_hit_answered_from_cache (env : Env) (clientMessage : MessageEvent)
    (b : Broker) (validMessage : BrokerAuthRequest) (clientPort : Port)
    (otherPorts : list Port) (cached : string)
    (brokerResponse : BrokerAuthenticationResult) :
  BrokerAuthRequest_validate env clientMessage = Some validMessage →
  ports clientMessage = clientPort :: otherPorts →
  let barrier := awaitCurrentBrokerRedirectResponse env b in
  outcome barrier = Returned tt →
  outcome (getBrokerResponseByThumbprint env (reqThumbprintOf validMessage)
             (embeddedAppOrigin validMessage) (final barrier))
  = Returned (Some cached) →
  cached ≠ "" →
  JSON_parse env cached = Returned brokerResponse →
  let run := handleBrokerAuthRequest env clientMessage b in
  trace run
  = (Log LogVerbose "Broker auth request validated: [object Object]"
       :: trace barrier ++
     [GetBrokerResponseByThumbprint (reqThumbprintOf validMessage)
        (embeddedAppOrigin validMessage);
      Log LogInfo "Sending auth response";
      PostMessage clientPort (BrokerAuthResponse Redirect (Some brokerResponse) None);
      ClosePort clientPort])%list
  ∧ List.filter isLocalAcquisition (trace run) = []
  ∧ outcome run = Returned tt.
Proof.
  intros Hvalid Hports barrier Hbarrier Hhit Hnonempty Hparse run.
  assert (trace run
          = (Log LogVerbose "Broker auth request validated: [object Object]"
               :: trace barrier ++
             [GetBrokerResponseByThumbprint (reqThumbprintOf validMessage)
                (embeddedAppOrigin validMessage);
              Log LogInfo "Sending auth response";
              PostMessage clientPort
                (BrokerAuthResponse Redirect (Some brokerResponse) None);
              ClosePort clientPort])%list
          ∧ outcome run = Returned tt) as [Htrace Hout].
  { subst run barrier. unfold handleBrokerAuthRequest. rewrite Hvalid.
    rewrite trace_emit_then, outcome_emit_then.
    rewrite (trace_bind_returned _ _ _ tt Hbarrier).
    rewrite (outcome_bind_returned _ _ _ tt Hbarrier).
    rewrite (trace_bind_returned _ _ _ _ Hhit).
    rewrite (outcome_bind_returned _ _ _ _ Hhit).
    rewrite getBrokerResponseByThumbprint_trace.
    rewrite truthy_nonempty by done.
    destruct (awaitCurrentBrokerRedirectResponse env b) as [waited b' waitOutcome].
    cbn [trace final outcome] in *.
    destruct (getBrokerResponseByThumbprint _ _ _ b') as [probed b'' probeOutcome].
    rewrite Hports. run. rewrite Hparse. run. split; reflexivity. }
  split; [done|]. split; [|done].
  rewrite Htrace. cbn [List.filter isLocalAcquisition].
  rewrite List.filter_app. cbn [List.filter isLocalAcquisition]. rewrite app_nil_r.
  apply (filter_nil_weaken _ _ _ (awaitCurrentBrokerRedirectResponse_trace env b)).
  intros a Ha. rewrite Ha. by rewrite orb_true_r.
Qed.

Lemma cache_hit_answered_from_cache_witness :
  let env := exampleEnv None (Returned (Some exampleResult)) (Thrown NoAccountError) in
  let b := final (handleRedirectPromise_begin env None emptyBroker) in
  let run := handleBrokerAuthRequest env (exampleMessage AUTH_REQUEST) b in
  trace run
  = (Log LogVerbose "Broker auth request validated: [object Object]"
       :: trace (awaitCurrentBrokerRedirectResponse env b) ++
     [GetBrokerResponseByThumbprint
        {| authority := "https://login.example/common/";
           clientId := "embedded-app";
           scopes := ["profile"; "openid"] |}
        "https://app.example";
      Log LogInfo "Sending auth response";
      PostMessage 7 (BrokerAuthResponse Redirect (Some exampleResult) None);
      ClosePort 7])%list
  ∧ List.filter isLocalAcquisition (trace run) = []
  ∧ outcome run = Returned tt.
Proof.
  apply (cache_hit_answered_from_cache
           (exampleEnv None (Returned (Some exampleResult)) (Thrown NoAccountError))
           (exampleMessage AUTH_REQUEST)
           (final (handleRedirectPromise_begin
                     (exampleEnv None (Returned (Some exampleResult))
                        (Thrown NoAccountError))
                     None emptyBroker))
           {| interactionType := Popup;
              embeddedClientId := "embedded-app";
              embeddedAppOrigin := "https://app.example";
              request := exampleRequest ["profile"; "openid"] None |}
           7 [] (exampleStringify exampleResult) exampleResult);
    vm_compute; congruence.
Defined.

(** *** The barrier on the redirect completion *)

Lemma guardedBy_prefix (gate sensitive : Action → bool) (pre rest : list Action) :
  guardedBy gate sensitive pre = true →
  existsb gate pre = true →
  guardedBy gate sensitive (pre ++ rest)%list = true.
Proof.
  induction pre as [|a pre IH]; [done|].
  cbn [guardedBy existsb app]. intros Hg He.
  apply andb_prop in Hg as [Ha Hpre]. rewrite Ha. cbn [andb].
  destruct (gate a); [done|]. cbn [orb] in *. by apply IH.
Qed.

(** What a handler does while it waits for a stored promise: it is
    suspended, the completion stores its response and sets the active
    account, and the handler resumes once the promise is resolved; a
    rejected promise ends the handler at the [await]. *)
Lemma awaitCurrentBrokerRedirectResponse_pending (env : Env) (b : Broker)
    (brokerResponse : Outcome (option BrokerAuthenticationResult)) :
  currentBrokerRedirectResponse b = Some brokerResponse →
  let waiting := awaitCurrentBrokerRedirectResponse env b in
  let sensitive a := isCacheProbe a || isLocalAcquisition a in
  head (trace waiting) = Some AwaitRedirectResponse
  ∧ guardedBy isSettled sensitive (trace waiting) = true
  ∧ match outcome waiting with
    | Returned _ =>
        existsb isSettled (trace waiting) = true
        ∧ ∃ r, brokerResponse = Returned r
    | Thrown e =>
        trace waiting = [AwaitRedirectResponse] ∧ brokerResponse = Thrown e
    end.
Proof.
  intros Hcurrent. destruct b as [cache acct current].
  cbn [currentBrokerRedirectResponse] in Hcurrent. subst current.
  unfold awaitCurrentBrokerRedirectResponse, waitForBrokeredResponse,
    setMemoryCache, setActiveAccount.
  destruct brokerResponse as [[[racct token [tokens|] thumbprint]|]|e];
    run; repeat split; eauto.
Qed.

Lemma guardedBy_nil_sensitive (gate sensitive : Action → bool) (tr : list Action) :
  List.filter sensitive tr = [] → guardedBy gate sensitive tr = true.
Proof.
  induction tr as [|a tr IH]; [done|]. cbn [List.filter guardedBy].
  destruct (sensitive a); [done|]. intros H. cbn [negb andb].
  rewrite IH by done. apply orb_true_r.
Qed.

(** The part both handlers share: an optional log line, the wait, and the
    rest of the handler. *)
Lemma barrier_then_guarded (env : Env) (b : Broker)
    (brokerResponse : Outcome (option BrokerAuthenticationResult))
    (k : M Broker unit) :
  currentBrokerRedirectResponse b = Some brokerResponse →
  let tr := trace ((awaitCurrentBrokerRedirectResponse env ;; k) b) in
  head tr = Some AwaitRedirectResponse
  ∧ guardedBy isSettled (λ a, isCacheProbe a || isLocalAcquisition a) tr = true
  ∧ (∀ e, brokerResponse = Thrown e → tr = [AwaitRedirectResponse]).
Proof.
  intros Hcurrent tr.
  destruct (awaitCurrentBrokerRedirectResponse_pending env b _ Hcurrent)
    as (Hhead & Hguard & Hout).
  subst tr.
  destruct (outcome (awaitCurrentBrokerRedirectResponse env b)) as [[]|e] eqn:Ho.
  - destruct Hout as [Hsettled [r ->]].
    rewrite (trace_bind_returned _ _ _ tt Ho).
    split; [|split].
    + destruct (trace (awaitCurrentBrokerRedirectResponse env b)); [done|].
      exact Hhead.
    + by apply guardedBy_prefix.
    + intros e [=].
  - destruct Hout as [Htrace ->].
    rewrite (trace_bind_thrown _ _ _ e Ho), Htrace.
    repeat split; done.
Qed.

Lemma guardedBy_after_await (sensitive : Action → bool) (tr : list Action) :
  head tr = Some AwaitRedirectResponse →
  sensitive AwaitRedirectResponse = false →
  guardedBy isAwait sensitive tr = true.
Proof.
  destruct tr as [|a tr]; [done|]. cbn [head]. intros [= ->] Hs.
  cbn [guardedBy]. by rewrite Hs.
Qed.

(** C2: when a redirect completion is in progress, the auth-request
    handler and the redirect-completion handler do nothing to the response
    cache and start no acquisition before they wait for it; they probe the
    cache and acquire only after the completion has settled; and when it
    settles by rejection they stop at the wait, nothing probed. *)
Theorem redirect_barrier (env : Env) (clientMessage : MessageEvent) (b : Broker)
    (brokerResponse : Outcome (option BrokerAuthenticationResult)) :
  currentBrokerRedirectResponse b = Some brokerResponse →
  let barrier (tr : list Action) :=
    precededBy isAwait (λ a, isCacheAccess a || isLocalAcquisition a) tr
    ∧ precededBy isSettled (λ a, isCacheProbe a || isLocalAcquisition a) tr
    ∧ (∀ e, brokerResponse = Thrown e → List.filter isCacheAccess tr = []) in
  barrier (trace (handleBrokerAuthRequest env clientMessage b))
  ∧ barrier (trace (handleBrokerRedirectResponse env clientMessage b)).
Proof.
  intros Hcurrent barrier.
  assert (barrier []) as Hnil.
  { repeat split; try done; intros pre a post Heq; by destruct pre. }
  split.
  - unfold handleBrokerAuthRequest.
    destruct (BrokerAuthRequest_validate env clientMessage) as [validMessage|];
      [|exact Hnil].
    rewrite trace_emit_then.
    match goal with
    | |- barrier (_ :: trace ((_ ;; ?k) b)) =>
        destruct (barrier_then_guarded env b _ k Hcurrent) as (Hhead & Hguard & Hrej)
    end.
    repeat split.
    + apply guardedBy_sound. cbn [guardedBy isCacheAccess isLocalAcquisition isAwait orb negb andb].
      by apply guardedBy_after_await.
    + apply guardedBy_sound. cbn [guardedBy isCacheProbe isLocalAcquisition isSettled orb negb andb].
      exact Hguard.
    + intros e He. by rewrite (Hrej e He).
  - unfold handleBrokerRedirectResponse.
    destruct (BrokerHandleRedirectRequest_validate env clientMessage); [|exact Hnil].
    match goal with
    | |- barrier (trace ((_ ;; ?k) b)) =>
        destruct (barrier_then_guarded env b _ k Hcurrent) as (Hhead & Hguard & Hrej)
    end.
    repeat split.
    + apply guardedBy_sound. by apply guardedBy_after_await.
    + by apply guardedBy_sound.
    + intros e He. by rewrite (Hrej e He).
Qed.

Lemma redirect_barrier_witness :
  let env := exampleEnv None (Returned (Some exampleResult)) (Thrown NoAccountError) in
  let b := final (handleRedirectPromise_begin env None emptyBroker) in
  let barrier (tr : list Action) :=
    precededBy isAwait (λ a, isCacheAccess a || isLocalAcquisition a) tr
    ∧ precededBy isSettled (λ a, isCacheProbe a || isLocalAcquisition a) tr
    ∧ (∀ e, Returned (Some exampleResult) = Thrown e →
            List.filter isCacheAccess tr = []) in
  barrier (trace (handleBrokerAuthRequest env (exampleMessage AUTH_REQUEST) b))
  ∧ barrier (trace (handleBrokerRedirectResponse env
                      (exampleMessage HANDLE_REDIRECT_REQUEST) b)).
Proof.
  split.
  - apply (redirect_barrier
             (exampleEnv None (Returned (Some exampleResult)) (Thrown NoAccountError))
             (exampleMessage AUTH_REQUEST)
             (final (handleRedirectPromise_begin
                       (exampleEnv None (Returned (Some exampleResult))
                          (Thrown NoAccountError)) None emptyBroker))
             (Returned (Some exampleResult))).
    reflexivity.
  - apply (redirect_barrier
             (exampleEnv None (Returned (Some exampleResult)) (Thrown NoAccountError))
             (exampleMessage HANDLE_REDIRECT_REQUEST)
             (final (handleRedirectPromise_begin
                       (exampleEnv None (Returned (Some exampleResult))
                          (Thrown NoAccountError)) None emptyBroker))
             (Returned (Some exampleResult))).
    reflexivity.
Defined.

(** *** One response per channel *)

Ltac outcomes :=
  repeat (run;
          match goal with
          | |- context [parseRequestState ?e ?s] =>
              destruct (parseRequestState e s) as [[?|]|?]
          | |- context [setRequestState ?e ?a ?b] =>
              destruct (setRequestState e a b)
          | |- context [acquireTokenPopupAsync ?e ?r] =>
              destruct (acquireTokenPopupAsync e r)
          | |- context [acquireTokenByIframe ?e ?r] =>
              destruct (acquireTokenByIframe e r)
          | |- context [acquireTokenByRefreshToken ?e ?r] =>
              destruct (acquireTokenByRefreshToken e r) as [[? ? [?|] ?]|?]
          end).

Lemma brokeredPopupRequest_once (env : Env) (validMessage : BrokerAuthRequest)
    (clientPort : Port) (b : Broker) :
  answeredOnce clientPort (brokeredPopupRequest env validMessage (Some clientPort) b).
Proof.
  unfold answeredOnce, brokeredPopupRequest, initializeBrokeredRequest.
  destruct (truthy (req_state _)); outcomes; eexists; reflexivity.
Qed.

Lemma brokeredSsoSilentRequest_once (env : Env) (validMessage : BrokerAuthRequest)
    (clientPort : Port) (b : Broker) :
  answeredOnce clientPort (brokeredSsoSilentRequest env validMessage (Some clientPort) b).
Proof.
  unfold answeredOnce, brokeredSsoSilentRequest, initializeBrokeredRequest.
  destruct (truthy (req_state _)); outcomes; eexists; reflexivity.
Qed.

Lemma brokeredSilentRequest_once (env : Env) (validMessage : BrokerAuthRequest)
    (clientPort : Port) (acct : option AccountInfo) (b : Broker) :
  answeredOnce clientPort
    (brokeredSilentRequest env validMessage (Some clientPort) acct b).
Proof.
  unfold answeredOnce, brokeredSilentRequest.
  outcomes; eexists; reflexivity.
Qed.

Lemma brokeredRedirectRequest_once (env : Env) (validMessage : BrokerAuthRequest)
    (clientPort : Port) (b : Broker) (prepared : AcquisitionRequest) :
  outcome (initializeBrokeredRequest env (interactiveRequestOf env validMessage)
             Redirect (embeddedAppOrigin validMessage) b) = Returned prepared →
  trace (brokeredRedirectRequest env validMessage (Some clientPort) b)
  = (PostMessage clientPort BrokerRedirectResponse
     :: ClosePort clientPort
     :: Log LogInfo "Sending redirect response: [object Object]"
     :: trace (initializeBrokeredRequest env (interactiveRequestOf env validMessage)
                 Redirect (embeddedAppOrigin validMessage) b)
     ++ [AcquireTokenRedirectAsync prepared])%list.
Proof.
  unfold brokeredRedirectRequest, interactiveRequestOf.
  generalize (initializeBrokeredRequest env
                (withInteractiveParams (embeddedAppOrigin validMessage)
                   (embeddedClientId validMessage) (getRedirectUri env)
                   (request validMessage))
                Redirect (embeddedAppOrigin validMessage)).
  intros prepare Hprepared. run.
  destruct (prepare b) as [prepareTrace b' prepareOutcome].
  cbn [outcome] in Hprepared. subst prepareOutcome. reflexivity.
Qed.

Lemma initializeBrokeredRequest_trace (env : Env) (embeddedRequest : AcquisitionRequest)
    (interaction : InteractionType) (messageOrigin : string) (b : Broker) :
  List.filter isPortAction
    (trace (initializeBrokeredRequest env embeddedRequest interaction messageOrigin b))
  = [].
Proof.
  unfold initializeBrokeredRequest.
  destruct (truthy (req_state _)); outcomes; reflexivity.
Qed.

(** C4, as amended: with a channel, a popup acquisition, a silent renewal
    and an iframe attempt each end, whatever they return or throw, with
    exactly one message posted on the channel and the channel closed; a
    redirect acquisition whose preparation throws nothing posts its redirect
    response and closes the channel once; [interactiveBrokerRequest] passes
    [Popup] and [Redirect] on to these, and for [Silent] and [None] (a broker
    that blocks interactive requests) it only logs an error: nothing is
    posted and the channel stays open. *)
Theorem brokered_request_answered_once (env : Env) (validMessage : BrokerAuthRequest)
    (clientMessage : MessageEvent) (clientPort : Port) (otherPorts : list Port)
    (acct : option AccountInfo) (b : Broker) :
  ports clientMessage = clientPort :: otherPorts →
  let prepared :=
    ∃ r, outcome (initializeBrokeredRequest env (interactiveRequestOf env validMessage)
                    Redirect (embeddedAppOrigin validMessage) b) = Returned r in
  answeredOnce clientPort (brokeredPopupRequest env validMessage (Some clientPort) b)
  ∧ answeredOnce clientPort
      (brokeredSilentRequest env validMessage (Some clientPort) acct b)
  ∧ answeredOnce clientPort
      (brokeredSsoSilentRequest env validMessage (Some clientPort) b)
  ∧ (prepared →
     answeredOnce clientPort (brokeredRedirectRequest env validMessage (Some clientPort) b))
  ∧ answeredOnce clientPort
      (interactiveBrokerRequest env Popup validMessage clientMessage b)
  ∧ (prepared →
     answeredOnce clientPort
       (interactiveBrokerRequest env Redirect validMessage clientMessage b))
  ∧ (∀ interaction, interaction = Silent ∨ interaction = NoInteraction →
     let run := interactiveBrokerRequest env interaction validMessage clientMessage b in
     List.filter isPortAction (trace run) = []
     ∧ List.filter isResponse (trace run) = []
     ∧ outcome run = Returned tt).
Proof.
  intros Hports prepared.
  assert (prepared →
          answeredOnce clientPort
            (brokeredRedirectRequest env validMessage (Some clientPort) b)) as Hredirect.
  { intros [r Hr]. exists BrokerRedirectResponse.
    rewrite (brokeredRedirectRequest_once _ _ _ _ _ Hr).
    cbn [List.filter isPortAction]. rewrite List.filter_app.
    rewrite initializeBrokeredRequest_trace. reflexivity. }
  split; [apply brokeredPopupRequest_once|].
  split; [apply brokeredSilentRequest_once|].
  split; [apply brokeredSsoSilentRequest_once|].
  split; [exact Hredirect|].
  split; [|split].
  - unfold interactiveBrokerRequest. rewrite Hports. apply brokeredPopupRequest_once.
  - unfold interactiveBrokerRequest. rewrite Hports. exact Hredirect.
  - intros interaction [-> | ->]; repeat split; reflexivity.
Qed.

Lemma brokered_request_answered_once_witness :
  let env := exampleEnv None (Returned None) (Returned exampleResult) in
  let validMessage :=
    {| interactionType := Popup;
       embeddedClientId := "embedded-app";
       embeddedAppOrigin := "https://app.example";
       request := exampleRequest ["profile"; "openid"] None |} in
  answeredOnce 7 (brokeredPopupRequest env validMessage (Some 7) emptyBroker).
Proof.
  apply (brokered_request_answered_once
           (exampleEnv None (Returned None) (Returned exampleResult))
           {| interactionType := Popup;
              embeddedClientId := "embedded-app";
              embeddedAppOrigin := "https://app.example";
              request := exampleRequest ["profile"; "openid"] None |}
           (exampleMessage AUTH_REQUEST) 7 [] None emptyBroker).
  reflexivity.
Defined.

(** C4, as stated, fails: a broker whose [preferredInteractionType] is
    [None] receives a valid popup request on a channel and returns without a
    message posted or the channel closed. *)
Lemma blocked_interactive_request_unanswered :
  let env := exampleEnv (Some NoInteraction) (Returned None) (Thrown NoAccountError) in
  let run := handleBrokerMessage env (exampleMessage AUTH_REQUEST) emptyBroker in
  is_Some (BrokerAuthRequest_validate env (exampleMessage AUTH_REQUEST))
  ∧ ports (exampleMessage AUTH_REQUEST) = [7]
  ∧ trace run
    = [Log LogVerbose "Broker auth request received";
       Log LogVerbose "Broker auth request validated: [object Object]";
       GetBrokerResponseByThumbprint
         {| authority := "https://login.example/common/";
            clientId := "embedded-app";
            scopes := ["profile"; "openid"] |}
         "https://app.example";
       Log LogError
         "Broker is blocking interactive requests. Please attempt a silent request or sign into the broker first."]
  ∧ List.filter isPortAction (trace run) = []
  ∧ outcome run = Returned tt.
Proof. vm_compute. repeat split; eauto. Qed.

(** The redirect handler has posted its redirect response and closed the
    channel when the preparation of the redirect throws: its [catch] then
    posts an error response on the same channel and closes it again. *)
Lemma brokeredRedirectRequest_posts_again_on_error (env : Env)
    (validMessage : BrokerAuthRequest) (clientPort : Port) (b : Broker) (e : Error) :
  req_state (request validMessage) = None →
  setRequestState env None
    {| state_interactionType := Redirect;
       brokeredOrigin := embeddedAppOrigin validMessage |} = Thrown e →
  List.filter isPortAction
    (trace (brokeredRedirectRequest env validMessage (Some clientPort) b))
  = [PostMessage clientPort BrokerRedirectResponse;
     ClosePort clientPort;
     PostMessage clientPort (BrokerAuthResponse Popup None (Some e));
     ClosePort clientPort].
Proof.
  intros Hstate Hthrown.
  unfold brokeredRedirectRequest, initializeBrokeredRequest.
  cbn [withInteractiveParams req_state]. rewrite Hstate. cbn [truthy].
  run. rewrite Hthrown. reflexivity.
Qed.

(** *** Silent acquisition and forwarding in the client applications *)

Ltac lookups cenv :=
  unfold cachedTokenAttempt, localLookup;
  repeat (run;
          match goal with
          | H : bonded ?c = _ |- context [bonded ?c] => rewrite H
          | H : preflightBrowserEnvironmentCheck cenv ?i = _
            |- context [preflightBrowserEnvironmentCheck cenv ?i] => rewrite H
          | H : preflightInteractiveRequest cenv ?r ?i = _
            |- context [preflightInteractiveRequest cenv ?r ?i] => rewrite H
          | |- context [createSilentFlowClient cenv ?a] =>
              destruct (createSilentFlowClient cenv a) as [[]|?]
          | |- context [acquireCachedToken cenv ?r] =>
              destruct (acquireCachedToken cenv r)
          | |- context [renewByRefreshToken cenv ?r] =>
              destruct (renewByRefreshToken cenv r)
          | |- context [sendSilentRefreshRequest cenv ?r] =>
              destruct (sendSilentRefreshRequest cenv r)
          end).

(** C1, as amended: a call of [acquireTokenSilent] that passes the checks
    made first (the browser-environment preflight and, in the experimental
    application, an account in the request or an active one) and is not
    forwarded to a broker starts with the attempt to return a cached token;
    if that attempt returns, its token is the result and nothing is renewed;
    if it throws, the refresh-token exchange is called exactly once, and what
    that call returns or throws is the result of [acquireTokenSilent],
    unchanged; no popup or redirect is started either way. *)
Theorem acquireTokenSilent_fallback_chain (cenv : ClientEnv)
    (request : AcquisitionRequest) (c : Client) :
  bonded c = false →
  preflightBrowserEnvironmentCheck cenv Silent = Returned tt →
  let chain (silentRequest renewalRequest : AcquisitionRequest)
        (run : Run Client BrokerAuthenticationResult) :=
    (∃ rest,
        trace run
        = PreflightBrowserEnvironmentCheck Silent
            :: EmitEvent ACQUIRE_TOKEN_START Silent
            :: CreateSilentFlowClient :: rest)
    ∧ match localLookup cenv silentRequest with
      | Returned cachedToken =>
          outcome run = Returned cachedToken
          ∧ List.filter isRenewal (trace run) = []
      | Thrown _ =>
          outcome run = renewByRefreshToken cenv renewalRequest
          ∧ List.filter isRenewal (trace run)
            = [AcquireTokenByRefreshToken renewalRequest]
      end
    ∧ List.filter isInteractive (trace run) = []
    ∧ List.filter isForwarded (trace run) = [] in
  chain (initializeBaseRequest cenv request) request
    (PublicClientApplication.acquireTokenSilent cenv request c)
  ∧ ∀ acct,
      match req_account request with
      | Some a => Some a
      | None => client_activeAccount c
      end = Some acct →
      let silentRequest :=
        withAccountAndRefresh acct (forceRefresh request || false)
          (initializeBaseRequest cenv request) in
      chain silentRequest silentRequest
        (ExperimentalClientApplication.acquireTokenSilent cenv request c).
Proof.
  intros Hbonded Hpreflight chain. subst chain. cbv beta. split.
  - unfold PublicClientApplication.acquireTokenSilent.
    lookups cenv; repeat split; eauto.
  - intros acct Hacct silentRequest. subst silentRequest.
    unfold ExperimentalClientApplication.acquireTokenSilent.
    rewrite Hpreflight. run. rewrite Hacct.
    lookups cenv; repeat split; eauto.
Qed.

Lemma acquireTokenSilent_fallback_chain_witness :
  let cenv :=
    exampleClientEnv (Thrown (OtherError "no cached token"))
      (Thrown (InteractionRequiredAuthError "interaction_required")) in
  let request := exampleRequest ["openid"] (Some exampleAccount) in
  let run :=
    PublicClientApplication.acquireTokenSilent cenv request (standaloneClient None) in
  outcome run = Thrown (InteractionRequiredAuthError "interaction_required")
  ∧ List.filter isRenewal (trace run) = [AcquireTokenByRefreshToken request].
Proof.
  exact (proj1 (proj2 (proj1
           (acquireTokenSilent_fallback_chain
              (exampleClientEnv (Thrown (OtherError "no cached token"))
                 (Thrown (InteractionRequiredAuthError "interaction_required")))
              (exampleRequest ["openid"] (Some exampleAccount))
              (standaloneClient None) eq_refl eq_refl)))).
Defined.

(** C1, as stated, fails: without an account in the request and without an
    active account, the experimental [acquireTokenSilent] of an application
    that has no broker throws the no-account error before any attempt to
    return a cached token. *)
Lemma acquireTokenSilent_without_account_counterexample :
  let cenv :=
    exampleClientEnv (Returned exampleBrokerResult) (Returned exampleBrokerResult) in
  let run :=
    ExperimentalClientApplication.acquireTokenSilent cenv
      (exampleRequest ["openid"] None) (standaloneClient None) in
  bonded (standaloneClient None) = false
  ∧ trace run = [PreflightBrowserEnvironmentCheck Silent]
  ∧ List.filter isLocalAcquisition (trace run) = []
  ∧ outcome run = Thrown NoAccountError.
Proof. vm_compute. repeat split. Qed.

(** C7, as amended: while the broker connection is established (and the
    application is not itself a broker), [acquireTokenSilent] and
    [acquireTokenPopup] of PublicClientApplication and [handleRedirectPromise]
    of both applications forward the call and run nothing locally, once the
    preflight checks of the function have passed; the experimental
    [acquireTokenSilent] first tries to return a token from the local cache,
    returns it when there is one, and forwards the call only when that
    attempt fails, in place of the refresh-token exchange: no acquisition
    that goes to the network is run locally. *)
Theorem bonded_calls_forwarded (cenv : ClientEnv) (request : AcquisitionRequest)
    (c : Client) :
  bonded c = true →
  (preflightBrowserEnvironmentCheck cenv Silent = Returned tt →
   let run := PublicClientApplication.acquireTokenSilent cenv request c in
   List.filter isForwarded (trace run) = [SendSilentRefreshRequest request]
   ∧ List.filter isLocalAcquisition (trace run) = []
   ∧ outcome run = sendSilentRefreshRequest cenv request)
  ∧ (let run := PublicClientApplication.acquireTokenPopup cenv request c in
     trace run = [SendPopupRequest request]
     ∧ outcome run = sendPopupRequest cenv request)
  ∧ (broker c = None →
     ∀ hash,
       let run := PublicClientApplication.handleRedirectPromise cenv c in
       let run' := ExperimentalClientApplication.handleRedirectPromise cenv hash c in
       trace run = [SendHandleRedirectRequest]
       ∧ outcome run = sendHandleRedirectRequest cenv
       ∧ trace run' = [SendHandleRedirectRequest]
       ∧ outcome run' = sendHandleRedirectRequest cenv)
  ∧ (preflightBrowserEnvironmentCheck cenv Silent = Returned tt →
     ∀ acct,
       match req_account request with
       | Some a => Some a
       | None => client_activeAccount c
       end = Some acct →
       let silentRequest :=
         withAccountAndRefresh acct (forceRefresh request || false)
           (initializeBaseRequest cenv request) in
       let run := ExperimentalClientApplication.acquireTokenSilent cenv request c in
       (∃ rest,
           trace run
           = PreflightBrowserEnvironmentCheck Silent
               :: EmitEvent ACQUIRE_TOKEN_START Silent
               :: CreateSilentFlowClient :: rest)
       ∧ match localLookup cenv silentRequest with
         | Returned cachedToken =>
             outcome run = Returned cachedToken
             ∧ List.filter isForwarded (trace run) = []
         | Thrown _ =>
             outcome run = sendSilentRefreshRequest cenv request
             ∧ List.filter isForwarded (trace run) = [SendSilentRefreshRequest request]
         end
       ∧ List.filter isNetworkAcquisition (trace run) = []).
Proof.
  intros Hbonded. split; [|split; [|split]].
  - intros Hpreflight run. subst run.
    unfold PublicClientApplication.acquireTokenSilent.
    rewrite Hpreflight. run. rewrite Hbonded.
    lookups cenv; repeat split; eauto.
  - unfold PublicClientApplication.acquireTokenPopup. run. rewrite Hbonded.
    destruct (sendPopupRequest cenv request); split; reflexivity.
  - intros Hbroker hash.
    unfold PublicClientApplication.handleRedirectPromise,
      ExperimentalClientApplication.handleRedirectPromise.
    run. rewrite Hbroker, Hbonded.
    destruct (sendHandleRedirectRequest cenv); repeat split; reflexivity.
  - intros Hpreflight acct Hacct silentRequest run. subst silentRequest run.
    unfold ExperimentalClientApplication.acquireTokenSilent.
    rewrite Hpreflight. run. rewrite Hacct.
    lookups cenv; repeat split; eauto.
Qed.

Lemma bonded_calls_forwarded_witness :
  let cenv :=
    exampleClientEnv (Returned exampleBrokerResult)
      (Thrown (InteractionRequiredAuthError "interaction_required")) in
  let request := exampleRequest ["openid"] None in
  let run :=
    PublicClientApplication.acquireTokenSilent cenv request (bondedClient None) in
  List.filter isForwarded (trace run) = [SendSilentRefreshRequest request]
  ∧ List.filter isLocalAcquisition (trace run) = []
  ∧ outcome run = Returned exampleResult.
Proof.
  exact (proj1
           (bonded_calls_forwarded
              (exampleClientEnv (Returned exampleBrokerResult)
                 (Thrown (InteractionRequiredAuthError "interaction_required")))
              (exampleRequest ["openid"] None) (bondedClient None) eq_refl)
           eq_refl).
Defined.

(** C7, as stated, fails: with the broker connection established, the
    experimental [acquireTokenSilent] looks the token up in the local cache
    and, finding it, returns it; nothing is forwarded to the broker. *)
Lemma acquireTokenSilent_bonded_local_lookup_counterexample :
  let cenv :=
    exampleClientEnv (Returned exampleBrokerResult) (Returned exampleBrokerResult) in
  let request := exampleRequest ["openid"] (Some exampleAccount) in
  let run :=
    ExperimentalClientApplication.acquireTokenSilent cenv request (bondedClient None) in
  bonded (bondedClient None) = true
  ∧ trace run
    = [PreflightBrowserEnvironmentCheck Silent;
       EmitEvent ACQUIRE_TOKEN_START Silent;
       CreateSilentFlowClient;
       AcquireCachedToken request;
       EmitEvent ACQUIRE_TOKEN_SUCCESS Silent]
  ∧ List.filter isForwarded (trace run) = []
  ∧ outcome run = Returned exampleBrokerResult.
Proof. vm_compute. repeat split. Qed.

(** ** Further properties of the code *)

(** *** Messages the broker ignores, and the trust decision *)

(** X1: the broker ignores a message that the envelope check refuses and a
    message of a type it has no handler for (the three response types):
    nothing is logged, sent or looked up, the broker is left as it was and
    nothing is thrown. *)
Theorem unhandled_message_ignored (env : Env) (message : MessageEvent) (b : Broker) :
  (validateMessage message = None
   ∨ ∃ d t, data message = Some d ∧ messageType d = Some (KnownType t)
            ∧ t ∈ [HANDSHAKE_RESPONSE; AUTH_RESPONSE; REDIRECT_RESPONSE]) →
  handleBrokerMessage env message b = mkRun [] b (Returned tt).
Proof.
  intros [Hnone|(d & t & Hd & Ht & Hin)].
  - by apply malformed_message_dropped.
  - by apply (unhandled_type_dropped env message d t).
Qed.

Lemma unhandled_message_ignored_witness :
  handleBrokerMessage (exampleEnv None (Returned None) (Thrown NoAccountError))
    (exampleMessage AUTH_RESPONSE) emptyBroker
  = mkRun [] emptyBroker (Returned tt).
Proof.
  apply (unhandled_message_ignored
           (exampleEnv None (Returned None) (Thrown NoAccountError))
           (exampleMessage AUTH_RESPONSE) emptyBroker).
  right. exists (examplePayload AUTH_RESPONSE), AUTH_RESPONSE.
  repeat split. set_unfold. tauto.
Defined.

Lemma no_match_iff_not_exists (f : string → bool) (l : list string) :
  (List.length (List.filter f l) <=? 0)%nat = negb (existsb f l).
Proof.
  induction l as [|x l IH]; [done|]. cbn [List.filter existsb].
  destruct (f x); [done|]. exact IH.
Qed.

(** X2: for a handshake response of the right shape, trust is decided by the
    transport's origin alone: the response is accepted, with the payload's
    version and that origin, exactly when some trusted domain pattern
    matches the origin, and the untrusted-broker error is thrown
    otherwise; with an empty list of trusted domains it is always thrown. *)
Theorem handshake_response_trust_decision (matchPattern : string → string → bool)
    (message : MessageEvent) (d : MessageData) (v : string) (trusted : list string) :
  data message = Some d →
  messageType d = Some (KnownType HANDSHAKE_RESPONSE) →
  truthy (data_version d) = Some v →
  BrokerHandshakeResponse_validate matchPattern message trusted
  = (if existsb (λ domain, matchPattern domain (origin message)) trusted
     then Returned (Some {| version := v; brokerOrigin := origin message |})
     else Thrown UntrustedBrokerError)
  ∧ BrokerHandshakeResponse_validate matchPattern message [] = Thrown UntrustedBrokerError.
Proof.
  intros Hd Ht Hv.
  assert (∀ l, BrokerHandshakeResponse_validate matchPattern message l
               = (if existsb (λ domain, matchPattern domain (origin message)) l
                  then Returned (Some {| version := v; brokerOrigin := origin message |})
                  else Thrown UntrustedBrokerError)) as Hall.
  { intros l. unfold BrokerHandshakeResponse_validate, validateMessage.
    rewrite Hd, Ht. rewrite Hd, Ht, Hv.
    rewrite bool_decide_eq_true_2 by done.
    rewrite no_match_iff_not_exists. by destruct (existsb _ l). }
  split; [apply Hall|]. by rewrite Hall.
Qed.

Lemma handshake_response_trust_decision_witness :
  let message :=
    {| data := Some (examplePayload HANDSHAKE_RESPONSE);
       origin := "https://broker.example";
       ports := [] |} in
  BrokerHandshakeResponse_validate String.eqb message
    ["https://other.example"; "https://broker.example"]
  = Returned (Some {| version := "2.14.2"; brokerOrigin := "https://broker.example" |})
  ∧ BrokerHandshakeResponse_validate String.eqb message [] = Thrown UntrustedBrokerError.
Proof.
  exact (handshake_response_trust_decision String.eqb
           {| data := Some (examplePayload HANDSHAKE_RESPONSE);
              origin := "https://broker.example";
              ports := [] |}
           (examplePayload HANDSHAKE_RESPONSE) "2.14.2"
           ["https://other.example"; "https://broker.example"]
           eq_refl eq_refl eq_refl).
Defined.

Lemma malformed_handshake_response_null_witness :
  BrokerHandshakeResponse_validate String.eqb
    {| data := Some {| messageType := Some (KnownType HANDSHAKE_RESPONSE);
                       data_version := Some "";
                       data_brokerOrigin := None;
                       data_embeddedClientId := None;
                       data_interactionType := None;
                       data_request := None |};
       origin := "https://unknown.example";
       ports := [] |} []
  = Returned None.
Proof.
  apply (malformed_handshake_response_null String.eqb).
  right. eexists. split; [reflexivity|]. right. reflexivity.
Defined.

(** *** What a computation never does *)

Section Never.
Context {S : Type} (P : Action → bool).

Lemma never_ret {A} (a : A) : never (S:=S) P (mret a).
Proof. intros s. reflexivity. Qed.

Lemma never_throw {A} (e : Error) : never (S:=S) (A:=A) P (throw e).
Proof. intros s. reflexivity. Qed.

Lemma never_await {A} (o : Outcome A) : never (S:=S) P (await o).
Proof. intros s. reflexivity. Qed.

Lemma never_get : never (S:=S) P get.
Proof. intros s. reflexivity. Qed.

Lemma never_modify (f : S → S) : never P (modify f).
Proof. intros s. reflexivity. Qed.

Lemma never_emit (a : Action) : P a = false → never (S:=S) P (emit a).
Proof. intros H s. cbn. by rewrite H. Qed.

Lemma never_bind {A B} (m : M S A) (f : A → M S B) :
  never P m → (∀ a, never P (f a)) → never P (m ≫= f).
Proof.
  intros Hm Hf s. specialize (Hm s). unfold mbind, M_bind.
  destruct (m s) as [tr s' [a|e]]; cbn [trace] in *; [|done].
  specialize (Hf a s'). destruct (f a s') as [tr' s'' o]. cbn [trace] in *.
  by rewrite List.filter_app, Hm, Hf.
Qed.

Lemma never_tryCatch {A} (body : M S A) (handler : Error → M S A) :
  never P body → (∀ e, never P (handler e)) → never P (tryCatch body handler).
Proof.
  intros Hb Hh s. specialize (Hb s). unfold tryCatch.
  destruct (body s) as [tr s' [a|e]]; cbn [trace] in *; [done|].
  specialize (Hh e s'). destruct (handler e s') as [tr' s'' o]. cbn [trace] in *.
  by rewrite List.filter_app, Hb, Hh.
Qed.

Lemma never_postMessage (clientPort : option Port) (message : BrokerMessage) :
  (∀ p, P (PostMessage p message) = false) →
  never (S:=S) P (postMessage clientPort message).
Proof.
  intros H. destruct clientPort as [p|]; [by apply never_emit|apply never_throw].
Qed.

Lemma never_close (clientPort : option Port) :
  (∀ p, P (ClosePort p) = false) → never (S:=S) P (close clientPort).
Proof.
  intros H. destruct clientPort as [p|]; [by apply never_emit|apply never_throw].
Qed.

End Never.

Ltac quiet :=
  cbv zeta;
  repeat first
    [ apply never_bind; [|intros ?]
    | apply never_tryCatch; [|intros ?]
    | apply never_ret
    | apply never_throw
    | apply never_await
    | apply never_get
    | apply never_modify
    | apply never_emit; reflexivity
    | apply never_postMessage; intros ?; reflexivity
    | apply never_close; intros ?; reflexivity
    | match goal with
      | |- never _ (match ?x with _ => _ end) => destruct x
      end ];
  try assumption.

Lemma initializeBrokeredRequest_never (P : Action → bool) (env : Env)
    (embeddedRequest : AcquisitionRequest) (interaction : InteractionType)
    (messageOrigin : string) :
  (∀ st nonce auth, P (UpdateCacheEntries st nonce auth) = false) →
  never P (initializeBrokeredRequest env embeddedRequest interaction messageOrigin).
Proof.
  intros HP. unfold initializeBrokeredRequest. quiet. by apply never_emit.
Qed.

Lemma waitForBrokeredResponse_never (P : Action → bool) (env : Env)
    (brokerResponse : Outcome (option BrokerAuthenticationResult)) :
  (∀ k v, P (SetMemoryCache k v) = false) →
  (∀ a, P (SetActiveAccount a) = false) →
  never P (waitForBrokeredResponse env brokerResponse).
Proof.
  intros H1 H2. unfold waitForBrokeredResponse, setMemoryCache, setActiveAccount.
  quiet; by apply never_emit.
Qed.

Lemma awaitCurrentBrokerRedirectResponse_never (P : Action → bool) (env : Env) :
  (∀ k v, P (SetMemoryCache k v) = false) →
  (∀ a, P (SetActiveAccount a) = false) →
  P AwaitRedirectResponse = false →
  P RedirectResponseSettled = false →
  never P (awaitCurrentBrokerRedirectResponse env).
Proof.
  intros H1 H2 H3 H4. unfold awaitCurrentBrokerRedirectResponse.
  quiet; by apply never_emit.
Qed.

Lemma getBrokerResponseByThumbprint_never (P : Action → bool) (env : Env)
    (thumbprint : RequestThumbprint) (embeddedOrigin : string) :
  P (GetBrokerResponseByThumbprint thumbprint embeddedOrigin) = false →
  never P (getBrokerResponseByThumbprint env thumbprint embeddedOrigin).
Proof. intros H. unfold getBrokerResponseByThumbprint. quiet. by apply never_emit. Qed.


(** X4: a request the embedded application marks as silent never makes the
    broker open a popup or start a redirect, whatever the broker prefers,
    whether or not an account is known, and whatever fails on the way. *)
Theorem silent_request_never_interactive (env : Env) (clientMessage : MessageEvent)
    (validMessage : BrokerAuthRequest) (b : Broker) :
  BrokerAuthRequest_validate env clientMessage = Some validMessage →
  interactionType validMessage = Silent →
  List.filter isInteractive (trace (handleBrokerAuthRequest env clientMessage b)) = [].
Proof.
  intros Hvalid Hsilent. revert b. change (never isInteractive (handleBrokerAuthRequest env clientMessage)).
  unfold handleBrokerAuthRequest. rewrite Hvalid, Hsilent.
  apply never_bind; [by apply never_emit|intros _].
  apply never_bind; [by apply awaitCurrentBrokerRedirectResponse_never|intros _].
  apply never_bind; [by apply getBrokerResponseByThumbprint_never|intros cached].
  destruct (truthy cached); [quiet|].
  apply never_bind; [unfold getActiveAccount; quiet|intros acct].
  destruct (bool_decide _).
  - unfold brokeredSilentRequest. quiet.
  - unfold brokeredSsoSilentRequest. quiet.
Qed.

Lemma silent_request_never_interactive_witness :
  let env := exampleEnv (Some Popup) (Returned None) (Thrown NoAccountError) in
  let message :=
    {| data := Some {| messageType := Some (KnownType AUTH_REQUEST);
                       data_version := Some "2.14.2";
                       data_brokerOrigin := None;
                       data_embeddedClientId := Some "embedded-app";
                       data_interactionType := Some Silent;
                       data_request := Some (exampleRequest ["openid"] None) |};
       origin := "https://app.example";
       ports := [7] |} in
  List.filter isInteractive (trace (handleBrokerAuthRequest env message emptyBroker)) = [].
Proof.
  apply (silent_request_never_interactive
           (exampleEnv (Some Popup) (Returned None) (Thrown NoAccountError))
           {| data := Some {| messageType := Some (KnownType AUTH_REQUEST);
                              data_version := Some "2.14.2";
                              data_brokerOrigin := None;
                              data_embeddedClientId := Some "embedded-app";
                              data_interactionType := Some Silent;
                              data_request := Some (exampleRequest ["openid"] None) |};
              origin := "https://app.example";
              ports := [7] |}
           {| interactionType := Silent;
              embeddedClientId := "embedded-app";
              embeddedAppOrigin := "https://app.example";
              request := exampleRequest ["openid"] None |}
           emptyBroker); reflexivity.
Defined.

(** *** Dispatch of an auth request *)

(** A lookup by thumbprint does one thing on the trace, throws nothing and
    touches the cache only. *)
Lemma getBrokerResponseByThumbprint_run (env : Env) (thumbprint : RequestThumbprint)
    (embeddedOrigin : string) (b : Broker) :
  ∃ found cache',
    getBrokerResponseByThumbprint env thumbprint embeddedOrigin b
    = mkRun [GetBrokerResponseByThumbprint thumbprint embeddedOrigin]
        (withMemoryCache (λ _, cache') b) (Returned found).
Proof.
  unfold getBrokerResponseByThumbprint. run.
  destruct b as [cache acct current]. state.
  destruct (cache !! _) as [value|]; [|by exists None, cache].
  destruct (cachedForOrigin _ _ _); run; state; eauto.
Qed.

(** X5: when the lookup misses and an account is known, the broker's active one
    or the one of the request, the request is served by the refresh-token
    exchange and by nothing else, whatever interaction type was asked for:
    the exchange runs once, for the request's account if it has one and for
    the active account otherwise, and the one response posted is its result
    if it carries tokens to cache, the no-tokens-to-cache error if it does
    not, and the error of the exchange, unchanged, if it throws. *)
Theorem known_account_renews_silently (env : Env) (clientMessage : MessageEvent)
    (validMessage : BrokerAuthRequest) (clientPort : Port) (otherPorts : list Port)
    (b : Broker) (miss : option string) :
  BrokerAuthRequest_validate env clientMessage = Some validMessage →
  ports clientMessage = clientPort :: otherPorts →
  currentBrokerRedirectResponse b = None →
  outcome (getBrokerResponseByThumbprint env (reqThumbprintOf validMessage)
             (embeddedAppOrigin validMessage) b) = Returned miss →
  truthy miss = None →
  is_Some (activeAccount b) ∨ is_Some (req_account (request validMessage)) →
  let silentRequest := silentRequestOf validMessage (activeAccount b) in
  let run := handleBrokerAuthRequest env clientMessage b in
  req_account silentRequest
  = match req_account (request validMessage) with
    | Some a => Some a
    | None => activeAccount b
    end
  ∧ List.filter isLocalAcquisition (trace run)
    = [AcquireTokenByRefreshToken silentRequest]
  ∧ List.filter isPortAction (trace run)
    = [PostMessage clientPort
         match acquireTokenByRefreshToken env silentRequest with
         | Returned response =>
             match tokensToCache response with
             | Some _ => BrokerAuthResponse Silent (Some response) None
             | None => BrokerAuthResponse Silent None (Some NoTokensToCacheError)
             end
         | Thrown e => BrokerAuthResponse Silent None (Some e)
         end;
       ClosePort clientPort]
  ∧ outcome run = Returned tt.
Proof.
  intros Hvalid Hports Hcurrent Hmiss Htruthy Haccount silentRequest run.
  split; [reflexivity|].
  subst run silentRequest. unfold handleBrokerAuthRequest.
  rewrite Hvalid, Hports.
  destruct b as [cache acct current]. cbn [currentBrokerRedirectResponse] in Hcurrent.
  subst current. cbn [activeAccount] in *.
  destruct (getBrokerResponseByThumbprint_run env (reqThumbprintOf validMessage)
              (embeddedAppOrigin validMessage)
              {| memoryCache := cache; activeAccount := acct;
                 currentBrokerRedirectResponse := None |})
    as (found & cache' & Hrun).
  rewrite Hrun in Hmiss. cbn [outcome] in Hmiss. injection Hmiss as ->.
  unfold awaitCurrentBrokerRedirectResponse, getActiveAccount. run. state. run.
  rewrite Hrun. run. rewrite Htruthy. run. state.
  rewrite bool_decide_eq_true_2 by done.
  unfold brokeredSilentRequest, silentRequestOf. run.
  destruct (acquireTokenByRefreshToken env _) as [[racct token [tokens|] thumbprint]|e];
    run; repeat split; reflexivity.
Qed.

Lemma known_account_renews_silently_witness :
  let env :=
    exampleEnv None (Returned None)
      (Thrown (InteractionRequiredAuthError "interaction_required")) in
  let b := withActiveAccount (Some exampleAccount) emptyBroker in
  let run := handleBrokerAuthRequest env (exampleMessage AUTH_REQUEST) b in
  List.filter isLocalAcquisition (trace run)
  = [AcquireTokenByRefreshToken
       (silentRequestOf
          {| interactionType := Popup;
             embeddedClientId := "embedded-app";
             embeddedAppOrigin := "https://app.example";
             request := exampleRequest ["profile"; "openid"] None |}
          (Some exampleAccount))]
  ∧ List.filter isPortAction (trace run)
    = [PostMessage 7
         (BrokerAuthResponse Silent None
            (Some (InteractionRequiredAuthError "interaction_required")));
       ClosePort 7]
  ∧ outcome run = Returned tt.
Proof.
  apply (known_account_renews_silently
           (exampleEnv None (Returned None)
              (Thrown (InteractionRequiredAuthError "interaction_required")))
           (exampleMessage AUTH_REQUEST)
           {| interactionType := Popup;
              embeddedClientId := "embedded-app";
              embeddedAppOrigin := "https://app.example";
              request := exampleRequest ["profile"; "openid"] None |}
           7 [] (withActiveAccount (Some exampleAccount) emptyBroker) None);
    try reflexivity.
  left. by eexists.
Defined.

(** X6: when the broker has a preferred interaction type, the interaction type
    an embedded application asks for, popup or redirect, makes no
    difference: two auth requests that differ in it alone are handled in
    the same way, with the same actions, the same final state and the same
    outcome. *)
Theorem broker_preference_overrides_request (env : Env) (m1 m2 : MessageEvent)
    (validMessage : BrokerAuthRequest) (t1 t2 preferred : InteractionType)
    (b : Broker) :
  preferredInteractionType env = Some preferred →
  BrokerAuthRequest_validate env m1 = Some (withInteractionType t1 validMessage) →
  BrokerAuthRequest_validate env m2 = Some (withInteractionType t2 validMessage) →
  ports m1 = ports m2 →
  t1 ≠ Silent → t2 ≠ Silent →
  handleBrokerAuthRequest env m1 b = handleBrokerAuthRequest env m2 b.
Proof.
  intros Hpreferred H1 H2 Hports Ht1 Ht2.
  unfold handleBrokerAuthRequest, interactiveBrokerRequest, getInteractionType.
  rewrite H1, H2, Hpreferred, Hports.
  destruct t1, t2; try done.
Qed.

Lemma broker_preference_overrides_request_witness :
  let env := exampleEnv (Some Popup) (Returned None) (Thrown NoAccountError) in
  let redirectMessage :=
    {| data := Some {| messageType := Some (KnownType AUTH_REQUEST);
                       data_version := Some "2.14.2";
                       data_brokerOrigin := None;
                       data_embeddedClientId := Some "embedded-app";
                       data_interactionType := Some Redirect;
                       data_request := Some (exampleRequest ["profile"; "openid"] None) |};
       origin := "https://app.example";
       ports := [7] |} in
  handleBrokerAuthRequest env (exampleMessage AUTH_REQUEST) emptyBroker
  = handleBrokerAuthRequest env redirectMessage emptyBroker.
Proof.
  apply (broker_preference_overrides_request
           (exampleEnv (Some Popup) (Returned None) (Thrown NoAccountError))
           (exampleMessage AUTH_REQUEST)
           {| data := Some {| messageType := Some (KnownType AUTH_REQUEST);
                              data_version := Some "2.14.2";
                              data_brokerOrigin := None;
                              data_embeddedClientId := Some "embedded-app";
                              data_interactionType := Some Redirect;
                              data_request :=
                                Some (exampleRequest ["profile"; "openid"] None) |};
              origin := "https://app.example";
              ports := [7] |}
           {| interactionType := Popup;
              embeddedClientId := "embedded-app";
              embeddedAppOrigin := "https://app.example";
              request := exampleRequest ["profile"; "openid"] None |}
           Popup Redirect Popup emptyBroker); done.
Defined.

(** X7: the redirect URI, the embedded client id and the broker's redirect URI
    of a brokered popup, redirect or iframe request are the broker's: the
    embedded application's origin and client id as validated and the
    broker's own redirect URI. Whatever the embedded application wrote in
    these three properties of its request has no effect on what the broker
    does. *)
Theorem requested_redirect_parameters_ignored (env : Env)
    (validMessage : BrokerAuthRequest) (redirect client brokerRedirect : option string)
    (clientPort : option Port) :
  let other := withRequestedRedirect redirect client brokerRedirect validMessage in
  brokeredPopupRequest env other clientPort
  = brokeredPopupRequest env validMessage clientPort
  ∧ brokeredRedirectRequest env other clientPort
    = brokeredRedirectRequest env validMessage clientPort
  ∧ brokeredSsoSilentRequest env other clientPort
    = brokeredSsoSilentRequest env validMessage clientPort
  ∧ redirectUri (interactiveRequestOf env other) = Some (embeddedAppOrigin validMessage)
  ∧ embeddedAppClientId (interactiveRequestOf env other)
    = Some (embeddedClientId validMessage)
  ∧ brokerRedirectUri (interactiveRequestOf env other) = Some (getRedirectUri env).
Proof. repeat split. Qed.

(** *** Redirect completion: rejection and frame *)

(** X8: when the redirect completion is rejected, [handleRedirectPromise]
    rethrows the error and leaves the rejected promise stored, the cache
    and the active account untouched. From then on every valid auth
    request and every valid redirect request stops at the wait for that
    promise, with the same error: no lookup is made and no response is
    sent, on the channel or otherwise. *)
Theorem rejected_redirect_blocks_handlers (env : Env) (hash : option string)
    (b : Broker) (e : Error) :
  super_handleRedirectPromise env hash = Thrown e →
  let run := handleRedirectPromise env hash b in
  outcome run = Thrown e
  ∧ final run = withRedirectResponse (Some (Thrown e)) b
  ∧ (∀ clientMessage,
       is_Some (BrokerAuthRequest_validate env clientMessage) →
       let later := handleBrokerAuthRequest env clientMessage (final run) in
       outcome later = Thrown e
       ∧ List.filter (λ a, isResponse a || isPortAction a || isCacheProbe a)
           (trace later) = []
       ∧ final later = final run)
  ∧ (∀ clientMessage,
       BrokerHandleRedirectRequest_validate env clientMessage = true →
       let later := handleBrokerRedirectResponse env clientMessage (final run) in
       outcome later = Thrown e
       ∧ List.filter (λ a, isResponse a || isPortAction a || isCacheProbe a)
           (trace later) = []
       ∧ final later = final run).
Proof.
  intros Hsuper run.
  assert (run = mkRun [SuperHandleRedirectPromise hash]
                  (withRedirectResponse (Some (Thrown e)) b) (Thrown e)) as ->.
  { subst run. unfold handleRedirectPromise, waitForBrokeredResponse.
    rewrite Hsuper. reflexivity. }
  cbn [outcome final]. split; [done|]. split; [done|]. split.
  - intros clientMessage [validMessage Hvalid].
    unfold handleBrokerAuthRequest. rewrite Hvalid.
    unfold awaitCurrentBrokerRedirectResponse, waitForBrokeredResponse.
    destruct b as [cache acct current]. run. state. run. done.
  - intros clientMessage Hvalid.
    unfold handleBrokerRedirectResponse. rewrite Hvalid.
    unfold awaitCurrentBrokerRedirectResponse, waitForBrokeredResponse.
    destruct b as [cache acct current]. run. state. run. done.
Qed.

Lemma rejected_redirect_blocks_handlers_witness :
  let env :=
    exampleEnv None (Thrown (OtherError "network_error")) (Thrown NoAccountError) in
  let run := handleRedirectPromise env None emptyBroker in
  outcome run = Thrown (OtherError "network_error")
  ∧ final run = withRedirectResponse (Some (Thrown (OtherError "network_error")))
                  emptyBroker.
Proof.
  pose proof (rejected_redirect_blocks_handlers
                (exampleEnv None (Thrown (OtherError "network_error"))
                   (Thrown NoAccountError))
                None emptyBroker (OtherError "network_error") eq_refl) as H.
  exact (conj (proj1 H) (proj1 (proj2 H))).
Defined.

(** X9: [handleRedirectPromise] never looks the response cache up and never
    sends anything: whatever the redirect completion settles to, its trace
    holds no cache lookup, no post and no close. It writes the cache
    exactly when the completion returns a response that carries
    [tokensToCache], and then once; when no redirect response is found
    (null), null is returned and only the stored promise is cleared. *)
Theorem handleRedirectPromise_writes_iff_cacheable (env : Env) (hash : option string)
    (b : Broker) :
  let run := handleRedirectPromise env hash b in
  List.filter (λ a, isCacheProbe a || isPortAction a || isResponse a) (trace run) = []
  ∧ List.length (List.filter isCacheWrite (trace run))
    = match super_handleRedirectPromise env hash with
      | Returned (Some response) =>
          match tokensToCache response with Some _ => 1 | None => 0 end
      | _ => 0
      end
  ∧ match super_handleRedirectPromise env hash with
    | Returned None =>
        run = mkRun [SuperHandleRedirectPromise hash] (withRedirectResponse None b)
                (Returned None)
    | _ => True
    end.
Proof.
  intros run. subst run.
  unfold handleRedirectPromise, waitForBrokeredResponse, setMemoryCache,
    setActiveAccount.
  destruct (super_handleRedirectPromise env hash) as [[r|]|e]; run.
  - destruct (tokensToCache r) as [tokens|] eqn:Htokens; run; state; done.
  - state. done.
  - state. done.
Qed.

(** *** The redirect-completion request of an embedded application *)

Lemma getBrokerResponseByOrigin_run (env : Env) (embeddedOrigin : string) (b : Broker) :
  ∃ found cache',
    getBrokerResponseByOrigin env embeddedOrigin b
    = mkRun [GetBrokerResponseByOrigin embeddedOrigin]
        (withMemoryCache (λ _, cache') b) (Returned found).
Proof.
  unfold getBrokerResponseByOrigin. run.
  destruct b as [cache acct current]. state.
  destruct (head _) as [[key value]|]; run; state; eauto.
Qed.

(** X10: a valid redirect request on a channel, with no redirect completion in
    progress, always gets its answer when there is nothing cached for its
    origin: a response with a null result is posted and the channel closed.
    When the lookup finds a response, that response is posted, once, and
    the channel closed; only if the cached text cannot be parsed does the
    handler end with the parse error and nothing posted. *)
Theorem redirect_request_answered (env : Env) (clientMessage : MessageEvent)
    (clientPort : Port) (otherPorts : list Port) (b : Broker) (found : option string) :
  BrokerHandleRedirectRequest_validate env clientMessage = true →
  ports clientMessage = clientPort :: otherPorts →
  currentBrokerRedirectResponse b = None →
  outcome (getBrokerResponseByOrigin env (origin clientMessage) b) = Returned found →
  let run := handleBrokerRedirectResponse env clientMessage b in
  match truthy found with
  | None =>
      trace run
      = [GetBrokerResponseByOrigin (origin clientMessage);
         PostMessage clientPort (BrokerAuthResponse Redirect None None);
         ClosePort clientPort]
      ∧ outcome run = Returned tt
  | Some cached =>
      match JSON_parse env cached with
      | Returned brokerResponse =>
          trace run
          = [GetBrokerResponseByOrigin (origin clientMessage);
             Log LogInfo "Sending auth response";
             PostMessage clientPort
               (BrokerAuthResponse Redirect (Some brokerResponse) None);
             ClosePort clientPort]
          ∧ outcome run = Returned tt
      | Thrown e =>
          trace run = [GetBrokerResponseByOrigin (origin clientMessage)]
          ∧ outcome run = Thrown e
      end
  end.
Proof.
  intros Hvalid Hports Hcurrent Hfound run. subst run.
  unfold handleBrokerRedirectResponse. rewrite Hvalid, Hports.
  destruct b as [cache acct current]. cbn [currentBrokerRedirectResponse] in Hcurrent.
  subst current.
  destruct (getBrokerResponseByOrigin_run env (origin clientMessage)
              {| memoryCache := cache; activeAccount := acct;
                 currentBrokerRedirectResponse := None |})
    as (found' & cache' & Hrun).
  rewrite Hrun in Hfound. cbn [outcome] in Hfound. injection Hfound as ->.
  unfold awaitCurrentBrokerRedirectResponse. run. state. run. rewrite Hrun. run.
  destruct (truthy found) as [cached|]; run; [|done].
  destruct (JSON_parse env cached); run; done.
Qed.

Lemma redirect_request_answered_witness :
  let env := exampleEnv None (Returned None) (Thrown NoAccountError) in
  let run :=
    handleBrokerRedirectResponse env (exampleMessage HANDLE_REDIRECT_REQUEST) emptyBroker in
  trace run
  = [GetBrokerResponseByOrigin "https://app.example";
     PostMessage 7 (BrokerAuthResponse Redirect None None);
     ClosePort 7]
  ∧ outcome run = Returned tt.
Proof.
  exact (redirect_request_answered
           (exampleEnv None (Returned None) (Thrown NoAccountError))
           (exampleMessage HANDLE_REDIRECT_REQUEST) 7 [] emptyBroker None
           eq_refl eq_refl eq_refl eq_refl).
Defined.

(** *** Requests without a channel, and writes to the response cache *)




(** X12: an auth request that came without a channel cannot be answered: each of
    the brokered handlers ends with the type error of posting on an
    undefined port, and nothing is posted. The redirect handler stops
    before it starts anything, whereas the silent renewal has run its
    refresh-token exchange by then. *)
Theorem request_without_channel (env : Env) (validMessage : BrokerAuthRequest)
    (acct : option AccountInfo) (b : Broker) :
  let noChannel (r : Run Broker unit) :=
    outcome r = Thrown (TypeError "postMessage of undefined")
    ∧ List.filter isPortAction (trace r) = [] in
  noChannel (brokeredRedirectRequest env validMessage None b)
  ∧ noChannel (brokeredPopupRequest env validMessage None b)
  ∧ noChannel (brokeredSsoSilentRequest env validMessage None b)
  ∧ noChannel (brokeredSilentRequest env validMessage None acct b)
  ∧ List.filter isLocalAcquisition
      (trace (brokeredRedirectRequest env validMessage None b)) = []
  ∧ List.filter isLocalAcquisition
      (trace (brokeredSilentRequest env validMessage None acct b))
    = [AcquireTokenByRefreshToken (silentRequestOf validMessage acct)].
Proof.
  intros noChannel. subst noChannel. cbv beta.
  unfold brokeredRedirectRequest, brokeredPopupRequest, brokeredSsoSilentRequest,
    brokeredSilentRequest, initializeBrokeredRequest, silentRequestOf.
  repeat split;
    try (destruct (truthy (req_state _))); outcomes; reflexivity.
Qed.

(** *** ClientInfo: errors and the policy segment *)

(** X13: an error thrown while the raw client info is decoded, by the base64
    decoding or by the parsing of the decoded text, reaches the caller
    wrapped in the client-info decoding error, whatever the authority. *)
Theorem ClientInfo_new_wraps_errors (codec : ClientInfo.Codec) (raw authority : string)
    (cause : Error) :
  raw ≠ "" →
  (ClientInfo.base64Decode codec raw = Thrown cause
   ∨ ∃ decoded,
       ClientInfo.base64Decode codec raw = Returned decoded
       ∧ ClientInfo.JSON_parse codec decoded = Thrown cause) →
  ClientInfo.new codec (Some raw) authority = Thrown (ClientInfoDecodingError cause).
Proof.
  intros Hraw Hcause. unfold ClientInfo.new, isEmpty.
  rewrite bool_decide_eq_false_2 by done.
  destruct Hcause as [Hdecode|(decoded & Hdecode & Hparse)].
  - by rewrite Hdecode.
  - by rewrite Hdecode, Hparse.
Qed.

Lemma ClientInfo_new_wraps_errors_witness :
  ClientInfo.new exampleCodec (Some "ew==") "https://login.example/common"
  = Thrown (ClientInfoDecodingError (OtherError "SyntaxError")).
Proof.
  apply (ClientInfo_new_wraps_errors exampleCodec "ew==" "https://login.example/common"
           (OtherError "SyntaxError")); [discriminate|].
  right. exists "{". split; reflexivity.
Defined.

(** X14: the constructor throws nothing but the client-info decoding error, and
    only for a raw string that is there and not empty. *)
Theorem ClientInfo_new_throws_only_decoding_error (codec : ClientInfo.Codec)
    (rawClientInfo : option string) (authority : string) (thrown : Error) :
  ClientInfo.new codec rawClientInfo authority = Thrown thrown →
  (∃ cause, thrown = ClientInfoDecodingError cause)
  ∧ ∃ raw, rawClientInfo = Some raw ∧ raw ≠ "".
Proof.
  unfold ClientInfo.new, isEmpty.
  destruct rawClientInfo as [raw|]; [|done].
  case_bool_decide as Hraw; [done|].
  destruct (ClientInfo.base64Decode codec raw) as [decoded|e].
  - destruct (ClientInfo.JSON_parse codec decoded) as [[|fields]|e]; try done.
    intros [= <-]. eauto.
  - intros [= <-]. eauto.
Qed.

Lemma ClientInfo_new_throws_only_decoding_error_witness :
  (∃ cause, ClientInfoDecodingError (OtherError "SyntaxError")
            = ClientInfoDecodingError cause)
  ∧ ∃ raw, Some "ew==" = Some raw ∧ raw ≠ "".
Proof.
  exact (ClientInfo_new_throws_only_decoding_error exampleCodec (Some "ew==")
           "https://login.example/common"
           (ClientInfoDecodingError (OtherError "SyntaxError")) eq_refl).
Defined.

Lemma split_snoc_separator (sep : ascii) (s : string) :
  split sep (s +:+ String sep EmptyString) = (split sep s ++ [EmptyString])%list.
Proof.
  induction s as [|c rest IH]; simpl.
  - by rewrite Ascii.eqb_refl.
  - destruct (Ascii.eqb c sep); [by rewrite IH|].
    rewrite IH. pose proof (split_not_nil sep rest).
    by destruct (split sep rest).
Qed.

(** X15: a slash at the end of the authority makes no difference to the policy
    that is stripped, as long as the authority's last segment is not
    empty. *)
Theorem stripPolicyFromUid_trailing_slash (uid authority policy : string) :
  last (split "/" authority) = Some policy →
  policy ≠ "" →
  ClientInfo.policyOf authority = policy
  ∧ ClientInfo.policyOf (authority +:+ "/") = policy
  ∧ ClientInfo.stripPolicyFromUid uid (authority +:+ "/")
    = ClientInfo.stripPolicyFromUid uid authority.
Proof.
  intros Hlast Hpolicy.
  assert (∃ rest, rev (split "/" authority) = policy :: rest) as [rest Hrev].
  { rewrite <- (removelast_last_app _ _ Hlast). rewrite rev_app_distr. eauto. }
  assert (ClientInfo.policyOf authority = policy) as H1.
  { unfold ClientInfo.policyOf, isEmpty. rewrite Hrev.
    by rewrite bool_decide_eq_false_2. }
  assert (ClientInfo.policyOf (authority +:+ "/") = policy) as H2.
  { unfold ClientInfo.policyOf. rewrite split_snoc_separator, rev_app_distr.
    cbn [rev app]. by rewrite Hrev. }
  repeat split; [done..|].
  unfold ClientInfo.stripPolicyFromUid. by rewrite H1, H2.
Qed.

Lemma stripPolicyFromUid_trailing_slash_witness :
  ClientInfo.policyOf "https://login.example/tfp/tenant/b2c_1_signin" = "b2c_1_signin"
  ∧ ClientInfo.policyOf ("https://login.example/tfp/tenant/b2c_1_signin" +:+ "/")
    = "b2c_1_signin"
  ∧ ClientInfo.stripPolicyFromUid "3f2c-b2c_1_signin"
      ("https://login.example/tfp/tenant/b2c_1_signin" +:+ "/")
    = ClientInfo.stripPolicyFromUid "3f2c-b2c_1_signin"
        "https://login.example/tfp/tenant/b2c_1_signin".
Proof.
  apply (stripPolicyFromUid_trailing_slash "3f2c-b2c_1_signin"
           "https://login.example/tfp/tenant/b2c_1_signin" "b2c_1_signin");
    [reflexivity|discriminate].
Defined.

Lemma split_app_separator (sep : ascii) (s t : string) :
  split sep (s +:+ String sep t) = (split sep s ++ split sep t)%list.
Proof.
  induction s as [|c rest IH]; simpl.
  - by rewrite Ascii.eqb_refl.
  - destruct (Ascii.eqb c sep); [by rewrite IH|].
    rewrite IH. pose proof (split_not_nil sep rest).
    by destruct (split sep rest).
Qed.

(** X16: a uid that ends in a hyphen and the policy of the authority is cut
    back to what stands before that hyphen, for a policy that contains no
    hyphen itself. *)
Theorem stripPolicyFromUid_strips_suffix (uid authority : string) :
  let policy := ClientInfo.policyOf authority in
  split "-" policy = [policy] →
  ClientInfo.stripPolicyFromUid (uid +:+ "-" +:+ policy) authority = uid.
Proof.
  intros policy Hplain. unfold ClientInfo.stripPolicyFromUid. fold policy.
  change ("-" +:+ policy) with (String "-"%char policy).
  rewrite split_app_separator, Hplain.
  rewrite last_snoc, bool_decide_eq_true_2 by done.
  rewrite List.removelast_last. apply join_split.
Qed.

Lemma stripPolicyFromUid_strips_suffix_witness :
  ClientInfo.stripPolicyFromUid ("3f2c-9a71" +:+ "-" +:+ "b2c_1_signin")
    "https://login.example/tfp/tenant/b2c_1_signin/"
  = "3f2c-9a71".
Proof.
  exact (stripPolicyFromUid_strips_suffix "3f2c-9a71"
           "https://login.example/tfp/tenant/b2c_1_signin/" eq_refl).
Defined.

(** *** Events and failing checks in the client applications *)

(** X17: a call of [acquireTokenSilent] whose preflight check passes announces
    its start once. An acquisition that runs locally then ends with one
    more event, success when a token is returned and failure when the
    renewal throws; a call that is forwarded to the broker emits neither,
    whatever the broker answers. *)
Theorem acquireTokenSilent_events (cenv : ClientEnv) (request : AcquisitionRequest)
    (c : Client) :
  preflightBrowserEnvironmentCheck cenv Silent = Returned tt →
  let started := EmitEvent ACQUIRE_TOKEN_START Silent in
  let ended (r : Run Client BrokerAuthenticationResult) :=
    match outcome r with
    | Returned _ => [EmitEvent ACQUIRE_TOKEN_SUCCESS Silent]
    | Thrown _ => [EmitEvent ACQUIRE_TOKEN_FAILURE Silent]
    end in
  (let run := PublicClientApplication.acquireTokenSilent cenv request c in
   List.filter isEvent (trace run)
   = started :: (if bonded c then [] else ended run))
  ∧ ∀ acct,
      match req_account request with
      | Some a => Some a
      | None => client_activeAccount c
      end = Some acct →
      let silentRequest :=
        withAccountAndRefresh acct (forceRefresh request || false)
          (initializeBaseRequest cenv request) in
      let run := ExperimentalClientApplication.acquireTokenSilent cenv request c in
      List.filter isEvent (trace run)
      = started :: match localLookup cenv silentRequest with
                   | Returned _ => [EmitEvent ACQUIRE_TOKEN_SUCCESS Silent]
                   | Thrown _ => if bonded c then [] else ended run
                   end.
Proof.
  intros Hpreflight started ended. subst started ended. cbv beta.
  destruct (bonded c) eqn:Hbonded; split.
  - unfold PublicClientApplication.acquireTokenSilent.
    rewrite Hpreflight. lookups cenv; reflexivity.
  - intros acct Hacct.
    unfold ExperimentalClientApplication.acquireTokenSilent.
    rewrite Hpreflight. run. rewrite Hacct. lookups cenv; reflexivity.
  - unfold PublicClientApplication.acquireTokenSilent.
    rewrite Hpreflight. lookups cenv; reflexivity.
  - intros acct Hacct.
    unfold ExperimentalClientApplication.acquireTokenSilent.
    rewrite Hpreflight. run. rewrite Hacct. lookups cenv; reflexivity.
Qed.

Lemma acquireTokenSilent_events_witness :
  let cenv :=
    exampleClientEnv (Thrown (OtherError "no cached token"))
      (Thrown (InteractionRequiredAuthError "interaction_required")) in
  List.filter isEvent
    (trace (PublicClientApplication.acquireTokenSilent cenv
              (exampleRequest ["openid"] None) (standaloneClient None)))
  = [EmitEvent ACQUIRE_TOKEN_START Silent; EmitEvent ACQUIRE_TOKEN_FAILURE Silent].
Proof.
  exact (proj1
           (acquireTokenSilent_events
              (exampleClientEnv (Thrown (OtherError "no cached token"))
                 (Thrown (InteractionRequiredAuthError "interaction_required")))
              (exampleRequest ["openid"] None) (standaloneClient None) eq_refl)).
Defined.

(** X18: when the preflight check of the browser environment throws, the call
    ends there with that error: no event is emitted, nothing is looked up,
    acquired or forwarded, bonded or not, and the application is left as
    it was. *)
Theorem failed_preflight_stops_call (cenv : ClientEnv) (request : AcquisitionRequest)
    (c : Client) (silentError popupError : Error) :
  preflightBrowserEnvironmentCheck cenv Silent = Thrown silentError →
  preflightBrowserEnvironmentCheck cenv Popup = Thrown popupError →
  PublicClientApplication.acquireTokenSilent cenv request c
  = mkRun [PreflightBrowserEnvironmentCheck Silent] c (Thrown silentError)
  ∧ ExperimentalClientApplication.acquireTokenSilent cenv request c
    = mkRun [PreflightBrowserEnvironmentCheck Silent] c (Thrown silentError)
  ∧ ExperimentalClientApplication.acquireTokenPopup cenv request c
    = mkRun [PreflightBrowserEnvironmentCheck Popup] c (Thrown popupError).
Proof.
  intros Hsilent Hpopup.
  unfold PublicClientApplication.acquireTokenSilent,
    ExperimentalClientApplication.acquireTokenSilent,
    ExperimentalClientApplication.acquireTokenPopup.
  rewrite Hsilent, Hpopup. repeat split.
Qed.

Lemma failed_preflight_stops_call_witness :
  let cenv :=
    {| brokerEnv := exampleEnv None (Returned None) (Thrown NoAccountError);
       asyncPopups := true;
       preflightBrowserEnvironmentCheck :=
         λ _, Thrown (OtherError "non_browser_environment");
       preflightInteractiveRequest := λ r _, Returned r;
       initializeBaseRequest := λ r, r;
       createSilentFlowClient := λ _, Returned tt;
       acquireCachedToken := λ _, Returned exampleBrokerResult;
       renewByRefreshToken := λ _, Returned exampleBrokerResult;
       popupAsync := λ _, Returned exampleBrokerResult;
       super_acquireTokenPopup := λ _, Returned exampleBrokerResult;
       super_handleRedirect := λ _, Returned None;
       sendSilentRefreshRequest := λ _, Returned exampleResult;
       sendPopupRequest := λ _, Returned exampleResult;
       sendHandleRedirectRequest := Returned None |} in
  ExperimentalClientApplication.acquireTokenPopup cenv
    (exampleRequest ["openid"] None) (bondedClient (Some exampleAccount))
  = mkRun [PreflightBrowserEnvironmentCheck Popup] (bondedClient (Some exampleAccount))
      (Thrown (OtherError "non_browser_environment")).
Proof.
  exact (proj2 (proj2
           (failed_preflight_stops_call
              {| brokerEnv := exampleEnv None (Returned None) (Thrown NoAccountError);
                 asyncPopups := true;
                 preflightBrowserEnvironmentCheck :=
                   λ _, Thrown (OtherError "non_browser_environment");
                 preflightInteractiveRequest := λ r _, Returned r;
                 initializeBaseRequest := λ r, r;
                 createSilentFlowClient := λ _, Returned tt;
                 acquireCachedToken := λ _, Returned exampleBrokerResult;
                 renewByRefreshToken := λ _, Returned exampleBrokerResult;
                 popupAsync := λ _, Returned exampleBrokerResult;
                 super_acquireTokenPopup := λ _, Returned exampleBrokerResult;
                 super_handleRedirect := λ _, Returned None;
                 sendSilentRefreshRequest := λ _, Returned exampleResult;
                 sendPopupRequest := λ _, Returned exampleResult;
                 sendHandleRedirectRequest := Returned None |}
              (exampleRequest ["openid"] None) (bondedClient (Some exampleAccount))
              (OtherError "non_browser_environment")
              (OtherError "non_browser_environment") eq_refl eq_refl))).
Defined.

(** *** An application that is itself the broker *)

(** X19: an application that acts as the broker hands [handleRedirectPromise]
    to its broker object, whether or not it also has an established
    connection to a broker of its own: nothing is forwarded, the call
    settles as the broker's [handleRedirectPromise] does and the broker
    object is left in the state that call leaves it in. *)
Theorem acting_broker_handles_redirect (cenv : ClientEnv) (hash : option string)
    (c : Client) (b : Broker) :
  broker c = Some b →
  let brokerRun := handleRedirectPromise (brokerEnv cenv) hash b in
  let run := ExperimentalClientApplication.handleRedirectPromise cenv hash c in
  trace run = BrokerHandleRedirectPromise hash :: trace brokerRun
  ∧ outcome run = outcome brokerRun
  ∧ broker (final run) = Some (final brokerRun)
  ∧ embeddedApp (final run) = embeddedApp c
  ∧ List.filter isForwarded (trace run) = []
  ∧ PublicClientApplication.handleRedirectPromise cenv c
    = ExperimentalClientApplication.handleRedirectPromise cenv None c.
Proof.
  intros Hbroker brokerRun run. subst brokerRun run.
  unfold ExperimentalClientApplication.handleRedirectPromise,
    PublicClientApplication.handleRedirectPromise, onBroker.
  run. rewrite Hbroker. run.
  destruct (handleRedirectPromise (brokerEnv cenv) hash b)
    as [steps b' result] eqn:Hrun.
  cbn [trace final outcome broker embeddedApp].
  repeat split; try by destruct result.
  revert Hrun.
  unfold handleRedirectPromise, waitForBrokeredResponse, setMemoryCache,
    setActiveAccount.
  destruct (super_handleRedirectPromise (brokerEnv cenv) hash) as [[r|]|e]; run.
  - destruct (tokensToCache r) as [tokens|] eqn:Htokens; run; state;
      intros [= <- <- <-]; done.
  - state. intros [= <- <- <-]. done.
  - state. intros [= <- <- <-]. done.
Qed.

Lemma acting_broker_handles_redirect_witness :
  let cenv := exampleClientEnv (Thrown NoAccountError) (Thrown NoAccountError) in
  let c :=
    {| broker := Some emptyBroker;
       embeddedApp := Some {| brokerConnectionEstablished := true |};
       client_activeAccount := None |} in
  List.filter isForwarded
    (trace (ExperimentalClientApplication.handleRedirectPromise cenv None c)) = [].
Proof.
  exact (proj1 (proj2 (proj2 (proj2 (proj2
           (acting_broker_handles_redirect
              (exampleClientEnv (Thrown NoAccountError) (Thrown NoAccountError)) None
              {| broker := Some emptyBroker;
                 embeddedApp := Some {| brokerConnectionEstablished := true |};
                 client_activeAccount := None |}
              emptyBroker eq_refl)))))).
Defined.
